(** * Startup Scoring Tool: the scorer and the batch pipeline of [app.py]

    A shallow embedding of [score_startup], [classify_score] and of the
    CSV batch section of [src/app.py], with the properties its
    specification states about them.

    Python values are the JSON values that [response.json()] can hand to
    the scorer.  Numbers are integers ([Z]); JSON fractions are not part
    of the model.  Strings are [string]s, read as the UTF-8 bytes of the
    Python text; [str.lower] is modelled on the ASCII letters [A]-[Z]
    and leaves every other byte alone, which decides as Python's does
    whether the result is one of the ASCII names the scorer compares
    with.  Dictionaries are finite maps from strings.  Exceptions are explicit: every operation that
    can raise returns a [result]. *)

From Stdlib Require Import ZArith String Ascii List Permutation Sorted Lia.
From stdpp Require Import base option list gmap strings fin_maps.

Set Warnings "-register-all".
Local Open Scope Z_scope.

(** ** Python values *)

Inductive value : Type :=
| VNone
| VBool (b : bool)
| VInt (n : Z)
| VStr (s : string)
| VList (l : list value)
| VDict (d : gmap string value).

(** A Python [dict] with string keys. *)
Abbreviation pydict := (gmap string value).

(** ** Exceptions *)

Inductive exn : Type :=
| TypeError
| AttributeError
| KeyError
| RequestException
| JSONDecodeError.

Inductive result (A : Type) : Type :=
| Ok (a : A)
| Raise (e : exn).
Arguments Ok {A} a.
Arguments Raise {A} e.

#[global] Instance result_ret : MRet result := fun A a => Ok a.
#[global] Instance result_bind : MBind result := fun A B f m =>
  match m with
  | Ok a => f a
  | Raise e => Raise e
  end.
#[global] Instance result_fmap : FMap result := fun A B f m =>
  match m with
  | Ok a => Ok (f a)
  | Raise e => Raise e
  end.

Definition returns {A} (m : result A) : Prop := exists a, m = Ok a.
Definition raises {A} (m : result A) : Prop := exists e, m = Raise e.

(** ** Python operators on values *)

(** [bool(v)] *)
Definition truthy (v : value) : bool :=
  match v with
  | VNone => false
  | VBool b => b
  | VInt n => negb (n =? 0)
  | VStr s => negb (String.eqb s "")
  | VList l => match l with [] => false | _ => true end
  | VDict d => match map_to_list d with [] => false | _ => true end
  end.

(** The integer a value stands for in arithmetic and in comparisons with
    an [int]; [bool] is a subclass of [int] in Python. *)
Definition as_num (v : value) : option Z :=
  match v with
  | VInt n => Some n
  | VBool b => Some (if b then 1 else 0)
  | _ => None
  end.

(** [d.get(k, dflt)] *)
Definition dict_get (d : pydict) (k : string) (dflt : value) : value :=
  default dflt (d !! k).

(** [v.get]: only a [dict] has the attribute. *)
Definition as_dict (v : value) : result pydict :=
  match v with
  | VDict d => Ok d
  | _ => Raise AttributeError
  end.

(** [v[k]] for a string key [k] *)
Definition subscript (v : value) (k : string) : result value :=
  match v with
  | VDict d => match d !! k with
               | Some x => Ok x
               | None => Raise KeyError
               end
  | _ => Raise TypeError
  end.

(** [min(30, v * 10)]: a [str] or a [list] can be repeated, but it does
    not compare with [30]; the other types do not multiply. *)
Definition min_30_times_10 (v : value) : result Z :=
  match as_num v with
  | Some n => Ok (Z.min 30 (n * 10))
  | None => Raise TypeError
  end.

(** [v > n] and [v >= n] against an [int] *)
Definition py_gt (v : value) (n : Z) : result bool :=
  match as_num v with
  | Some x => Ok (n <? x)
  | None => Raise TypeError
  end.

Definition py_ge (v : value) (n : Z) : result bool :=
  match as_num v with
  | Some x => Ok (n <=? x)
  | None => Raise TypeError
  end.

(** [str.lower] *)
Definition is_upper (c : ascii) : bool :=
  ((65 <=? N_of_ascii c) && (N_of_ascii c <=? 90))%N.

Definition is_lower (c : ascii) : bool :=
  ((97 <=? N_of_ascii c) && (N_of_ascii c <=? 122))%N.

Definition lower_char (c : ascii) : ascii :=
  if is_upper c then ascii_of_N (N_of_ascii c + 32) else c.

Definition upper_char (c : ascii) : ascii :=
  if is_lower c then ascii_of_N (N_of_ascii c - 32) else c.

Fixpoint lower (s : string) : string :=
  match s with
  | EmptyString => EmptyString
  | String c s' => String (lower_char c) (lower s')
  end.

(** [v.lower()] *)
Definition py_lower (v : value) : result string :=
  match v with
  | VStr s => Ok (lower s)
  | _ => Raise AttributeError
  end.

(** [s in names] for a list of string literals *)
Definition str_in (s : string) (names : list string) : bool :=
  existsb (String.eqb s) names.

(** [v in names]: [==] between a value and a [str] holds for the equal
    [str] only. *)
Definition value_in (v : value) (names : list string) : bool :=
  match v with
  | VStr s => str_in s names
  | _ => false
  end.

(** The values a [for] loop draws from [v]: the items of a list, the
    characters of a string, the keys of a dict. *)
Definition py_iter (v : value) : result (list value) :=
  match v with
  | VList l => Ok l
  | VStr s => Ok ((fun c => VStr (String c EmptyString)) <$> list_ascii_of_string s)
  | VDict d => Ok ((fun kv => VStr (fst kv)) <$> map_to_list d)
  | _ => Raise TypeError
  end.

(** ** [score_startup] *)

Definition industries : list string := ["software"; "technology"; "saas"].
Definition email_types : list string := ["generic"; "personal"].
Definition positions : list string := ["ceo"; "founder"; "cto"].

(** [if email_count: score += min(30, email_count * 10)] *)
Definition email_volume_term (email_count : value) : result Z :=
  if truthy email_count then min_30_times_10 email_count else Ok 0.

(** [if industry and industry.lower() in [...]: score += 10] *)
Definition industry_term (industry : value) : result Z :=
  if truthy industry then
    s ← py_lower industry;
    Ok (if str_in s industries then 10 else 0)
  else Ok 0.

(** [if employees and employees > 10: score += 20] *)
Definition headcount_term (employees : value) : result Z :=
  if truthy employees then
    b ← py_gt employees 10;
    Ok (if (b : bool) then 20 else 0)
  else Ok 0.

(** [if data.get("webmail"): score += 10] *)
Definition webmail_term (d : pydict) : Z :=
  if truthy (dict_get d "webmail" VNone) then 10 else 0.

(** The [+10] of one entry: [email.get("confidence", 0) >= 80] *)
Definition confidence_bonus (e : pydict) : result Z :=
  b ← py_ge (dict_get e "confidence" (VInt 0)) 80;
  Ok (if (b : bool) then 10 else 0).

(** The [+5] of one entry:
    [email.get("position") and email["position"].lower() in [...]] *)
Definition position_bonus (e : pydict) : result Z :=
  let position := dict_get e "position" VNone in
  if truthy position then
    s ← py_lower position;
    Ok (if str_in s positions then 5 else 0)
  else Ok 0.

(** The body of [for email in data.get("emails", [])], on the running
    [score]. *)
Definition email_step (score : Z) (email : value) : result Z :=
  ty ← subscript email "type";
  if value_in ty email_types then
    e ← as_dict email;
    c ← confidence_bonus e;
    p ← position_bonus e;
    Ok (score + c + p)
  else Ok score.

Fixpoint email_loop (score : Z) (emails : list value) : result Z :=
  match emails with
  | [] => Ok score
  | email :: rest => s ← email_step score email; email_loop s rest
  end.

(** [x or "N/A"] *)
Definition or_na (v : value) : value :=
  if truthy v then v else VStr "N/A".

(** The dict that [score_startup] returns. *)
Definition make_result (org domain industry emails_found employees : value)
    (score : Z) : pydict :=
  <["organization" := org]>
  (<["domain" := domain]>
  (<["industry" := industry]>
  (<["emails_found" := emails_found]>
  (<["employees" := employees]>
  (<["score" := VInt score]> ∅))))).

Definition score_startup (data : value) : result pydict :=
  d ← as_dict data;
  let org := dict_get d "organization" (dict_get d "domain" (VStr "N/A")) in
  let industry := dict_get d "industry" (VStr "") in
  let email_count := dict_get d "emails_count" (VInt 0) in
  let employees := dict_get d "employees" (VInt 0) in
  t1 ← email_volume_term email_count;
  t2 ← industry_term industry;
  t3 ← headcount_term employees;
  let score := 0 + t1 + t2 + t3 + webmail_term d in
  emails ← py_iter (dict_get d "emails" (VList []));
  score ← email_loop score emails;
  Ok (make_result org (dict_get d "domain" VNone) (or_na industry)
        email_count (or_na employees) score).

(** The [score] entry of a returned result. *)
Definition score_of (r : result pydict) : result (option value) :=
  (fun row => row !! "score") <$> r.

(** ** [classify_score] *)

Definition classify_score (score : Z) : string :=
  if 75 <=? score then "High"
  else if 40 <=? score then "Mid"
  else "Low".

(** ** Sample records *)

Definition cto_fields : pydict :=
  <["type" := VStr "generic"]>
  (<["confidence" := VInt 95]>
  (<["position" := VStr "CTO"]> ∅)).

Definition cto_email : value := VDict cto_fields.

(** The record of the specification's end-to-end example. *)
Definition stripe_fields : pydict :=
  <["domain" := VStr "stripe.com"]>
  (<["industry" := VStr "Technology"]>
  (<["employees_count" := VInt 500]>
  (<["emails_count" := VInt 2]>
  (<["webmail" := VBool false]>
  (<["emails" := VList [cto_email]]> ∅))))).

Definition stripe_record : value := VDict stripe_fields.

(** The same record with the headcount under the key that
    [score_startup] reads. *)
Definition stripe_fields_employees : pydict :=
  <["employees" := VInt 500]> (delete "employees_count" stripe_fields).

Definition stripe_record_employees : value := VDict stripe_fields_employees.

(** An entry that earns both bonuses. *)
Definition ceo_email : value :=
  VDict (<["type" := VStr "generic"]>
        (<["confidence" := VInt 90]>
        (<["position" := VStr "CEO"]> ∅))).

(** ** Records on which [score_startup] returns *)

Definition is_num (v : value) : bool :=
  match as_num v with Some _ => true | None => false end.

Definition is_str (v : value) : bool :=
  match v with VStr _ => true | _ => false end.

Definition falsy_or_num (v : value) : bool := negb (truthy v) || is_num v.
Definition falsy_or_str (v : value) : bool := negb (truthy v) || is_str v.

(** An entry of [emails]: a dict with a [type]; when the type is one of
    [email_types], its [confidence] (if any) is a number and its
    [position] is falsy or a string. *)
Definition email_ok (email : value) : bool :=
  match email with
  | VDict e =>
      match e !! "type" with
      | Some ty =>
          if value_in ty email_types then
            is_num (dict_get e "confidence" (VInt 0))
            && falsy_or_str (dict_get e "position" VNone)
          else true
      | None => false
      end
  | _ => false
  end.

(** The [emails] field: a list of such entries, or an empty string or
    dict (nothing to iterate over). *)
Definition emails_ok (v : value) : bool :=
  match v with
  | VList l => forallb email_ok l
  | VStr _ | VDict _ => negb (truthy v)
  | _ => false
  end.

Definition well_formed (data : value) : bool :=
  match data with
  | VDict d =>
      falsy_or_num (dict_get d "emails_count" (VInt 0))
      && falsy_or_str (dict_get d "industry" (VStr ""))
      && falsy_or_num (dict_get d "employees" (VInt 0))
      && emails_ok (dict_get d "emails" (VList []))
  | _ => false
  end.

(** The score alone, as [score_startup] accumulates it from the five
    fields it reads. *)
Definition score_terms (email_count industry employees webmail emails : value)
    : result Z :=
  t1 ← email_volume_term email_count;
  t2 ← industry_term industry;
  t3 ← headcount_term employees;
  l ← py_iter emails;
  email_loop (0 + t1 + t2 + t3 + (if truthy webmail then 10 else 0)) l.

Definition total_score (d : pydict) : result Z :=
  score_terms (dict_get d "emails_count" (VInt 0))
    (dict_get d "industry" (VStr ""))
    (dict_get d "employees" (VInt 0))
    (dict_get d "webmail" VNone)
    (dict_get d "emails" (VList [])).

(** The dict returned for the fields [d] when the score is [score]. *)
Definition result_row (d : pydict) (score : Z) : pydict :=
  make_result (dict_get d "organization" (dict_get d "domain" (VStr "N/A")))
    (dict_get d "domain" VNone)
    (or_na (dict_get d "industry" (VStr "")))
    (dict_get d "emails_count" (VInt 0))
    (or_na (dict_get d "employees" (VInt 0)))
    score.



Definition numeric_industry_record : value :=
  VDict (<["industry" := VInt 5]> ∅).




(** ** Changing the case of letters *)

Definition swap_case (c : ascii) : ascii :=
  if is_upper c then lower_char c else upper_char c.

(** [recase mask s] swaps the case of the characters of [s] at the
    positions where [mask] is [true]. *)
Fixpoint recase (mask : list bool) (s : string) : string :=
  match s, mask with
  | String c s', b :: mask' =>
      String (if b then swap_case c else c) (recase mask' s')
  | _, _ => s
  end.

(** ** The batch loop *)

(** What [requests.get(url)] does for one domain: it raises, or it
    returns a response with a status code and a body; [body] is what
    [response.json()] returns, [None] when that call raises. *)
Inductive http_outcome : Type :=
| ConnectionFailed
| Response (status_code : Z) (body : option value).

(** The dict appended for a domain that could not be scored. *)
Definition placeholder (domain : string) : pydict :=
  make_result (VStr "N/A") (VStr domain) (VStr "N/A") (VInt 0) (VStr "N/A") 0.

Definition response_json (body : option value) : result value :=
  match body with
  | Some json => Ok json
  | None => Raise JSONDecodeError
  end.

(** The [try] block of one iteration, on the list [results] so far. *)
Definition try_block (results : list pydict) (domain : string)
    (o : http_outcome) : result (list pydict) :=
  match o with
  | ConnectionFailed => Raise RequestException
  | Response status_code body =>
      if status_code =? 200 then
        json ← response_json body;
        data ← subscript json "data";
        r ← score_startup data;
        Ok (results ++ [r])
      else Ok (results ++ [placeholder domain])
  end.

(** One iteration: the [try] block with its bare [except:]. *)
Definition loop_body (results : list pydict) (domain : string)
    (o : http_outcome) : list pydict :=
  match try_block results domain o with
  | Ok results' => results'
  | Raise _ => results ++ [placeholder domain]
  end.

Section BatchLoop.
(** The network is a state that each request reads and advances. *)
Variable World : Type.
Variable requests_get : World -> string -> http_outcome * World.

(** [for domain in df["domain"]: ...], from the list [results]. *)
Fixpoint batch_loop (w : World) (domains : list string)
    (results : list pydict) : list pydict * World :=
  match domains with
  | [] => (results, w)
  | domain :: rest =>
      let '(o, w') := requests_get w domain in
      batch_loop w' rest (loop_body results domain o)
  end.

(** What the network answers to the successive requests of the loop. *)
Fixpoint responses (w : World) (domains : list string) : list http_outcome :=
  match domains with
  | [] => []
  | domain :: rest =>
      let '(o, w') := requests_get w domain in
      o :: responses w' rest
  end.
End BatchLoop.

Arguments batch_loop {World} requests_get w domains results.
Arguments responses {World} requests_get w domains.

(** A fetch that does not lead to a scored record. *)
Definition fetch_fails (o : http_outcome) : Prop :=
  match o with
  | ConnectionFailed => True
  | Response status_code body =>
      status_code <> 200
      \/ raises (json ← response_json body; data ← subscript json "data";
                 score_startup data)
  end.

(** The row that the batch owes to a domain, given what the network
    answered for it. *)
Inductive row_for : string -> http_outcome -> pydict -> Prop :=
| row_scored domain json data r :
    subscript json "data" = Ok data ->
    score_startup data = Ok r ->
    row_for domain (Response 200 (Some json)) r
| row_placeholder domain o :
    fetch_fails o ->
    row_for domain o (placeholder domain).

(** A scripted network: the outcomes of the successive requests. *)
Definition scripted (w : list http_outcome) (domain : string)
    : http_outcome * list http_outcome :=
  match w with
  | o :: w' => (o, w')
  | [] => (ConnectionFailed, [])
  end.

(** ** The result tables *)

(** The [score] of a row, as [results_df["score"]] hands it to
    [classify_score]. *)
Definition row_score (row : pydict) : result Z :=
  match row !! "score" with
  | Some (VInt n) => Ok n
  | Some _ => Raise TypeError
  | None => Raise KeyError
  end.

(** The key that [sort_values(by="score")] orders the rows by. *)
Definition score_key (row : pydict) : Z :=
  match row !! "score" with
  | Some (VInt n) => n
  | _ => 0
  end.

(** [df["score_group"] = df["score"].apply(classify_score)] *)
Fixpoint with_score_group (df : list pydict) : result (list pydict) :=
  match df with
  | [] => Ok []
  | row :: rest =>
      s ← row_score row;
      rest' ← with_score_group rest;
      Ok (<["score_group" := VStr (classify_score s)]> row :: rest')
  end.

Section Pipeline.
(** The library's [sort_values(by="score", ascending=False)] on the
    rows of a frame that has a [score] column, with the default sorting
    algorithm. *)
Variable sort_values : list pydict -> list pydict.

(** [pd.DataFrame(results).sort_values(by="score", ascending=False)]:
    a frame built from no rows has no [score] column. *)
Definition sorted_frame (results : list pydict) : result (list pydict) :=
  match results with
  | [] => Raise KeyError
  | _ => Ok (sort_values results)
  end.

(** The tables built after the loop: the full table [results_df] that
    is displayed and exported, and the [top10] view. *)
Definition result_tables (results : list pydict)
    : result (list pydict * list pydict) :=
  results_df ← sorted_frame results;
  results_df ← with_score_group results_df;
  results_df ← sorted_frame results;
  let top10 := take 10 results_df in
  top10 ← with_score_group top10;
  Ok (results_df, top10).

(** The full table as it stands after the grouping step, before it is
    rebuilt. *)
Definition grouped_table (results : list pydict) : result (list pydict) :=
  results_df ← sorted_frame results;
  with_score_group results_df.
End Pipeline.

(** The order that a descending sort establishes. *)
Definition score_desc (a b : pydict) : Prop := score_key b <= score_key a.

(** What the library promises of [sort_values]: the same rows, in
    descending order of score. *)
Definition sorts_by_score (sort : list pydict -> list pydict) : Prop :=
  forall rows, Permutation (sort rows) rows /\ StronglySorted score_desc (sort rows).

(** Insertion into a table in descending order of score, placing the
    row before ([strict = false]) or after ([strict = true]) the rows of
    equal score. *)
Fixpoint insert_row (strict : bool) (row : pydict) (sorted : list pydict)
    : list pydict :=
  match sorted with
  | [] => [row]
  | r :: rest =>
      if (if strict then score_key r <? score_key row
          else score_key r <=? score_key row)
      then row :: r :: rest
      else r :: insert_row strict row rest
  end.

(** A sorting function to run the tables with: insertion from the
    right. *)
Definition stable_sort (rows : list pydict) : list pydict :=
  foldr (insert_row false) [] rows.

(** A record that scores [10 * n] for [0 <= n <= 3]. *)
Definition record_with_emails (domain : string) (n : Z) : value :=
  VDict (<["domain" := VStr domain]> (<["emails_count" := VInt n]> ∅)).

Definition ok_response (data : value) : http_outcome :=
  Response 200 (Some (VDict (<["data" := data]> ∅))).

(** A row with its tier attached. *)
Definition tier_row (row : pydict) : pydict :=
  <["score_group" := VStr (classify_score (score_key row))]> row.

(** A row as the batch loop appends it: an integer [score] and no
    [score_group]. *)
Definition plain_row (row : pydict) : Prop :=
  (exists s, row !! "score" = Some (VInt s)) /\ row !! "score_group" = None.

(** A row that carries the tier of its score. *)
Definition grouped_row (row : pydict) : Prop :=
  row !! "score_group" = Some (VStr (classify_score (score_key row))).

(** A batch of three domains in which the second fetch fails. *)
Definition three_domains : list string := ["a.com"; "b.com"; "stripe.com"].

Definition three_world : list http_outcome :=
  [ok_response (record_with_emails "a.com" 1);
   Response 500 None;
   ok_response stripe_record_employees].

Definition three_results : list pydict :=
  (batch_loop scripted three_world three_domains []).1.

(** A batch of one domain whose fetch fails. *)
Definition failed_domains : list string := ["a.com"].
Definition failed_world : list http_outcome := [ConnectionFailed].

Definition failed_results : list pydict :=
  (batch_loop scripted failed_world failed_domains []).1.

(** ** Further notions for the scorer and the tables *)

(** The sum of the bonuses of the email entries. *)
Definition sum_bonuses (bs : list Z) : Z := foldr Z.add 0 bs.

(** The keys of the dict that [score_startup] returns, which are also
    the keys of the placeholder. *)
Definition result_keys : gset string :=
  {[ "organization"; "domain"; "industry"; "emails_found"; "employees"; "score" ]}.

(** The labels of the chart's colour scale,
    [alt.Scale(domain=["High", "Mid", "Low"], ...)]. *)
Definition score_tiers : list string := ["High"; "Mid"; "Low"].

(** The [score_group] of a row. *)
Definition score_group (row : pydict) : option value := row !! "score_group".

(** ** The single-domain path *)

(** What the page shows after the "Analyze" button is pressed: the
    warning for an empty input, the scored result, or the error for a
    failed fetch. *)
Inductive analyze_view : Type :=
| EnterDomainWarning
| Scored (result : pydict)
| FetchFailedError.

(** The body of [with st.spinner("Looking up domain...")], given the
    outcome of the request.  Nothing is caught here. *)
Definition analyze_response (o : http_outcome) : result analyze_view :=
  match o with
  | ConnectionFailed => Raise RequestException
  | Response status_code body =>
      if status_code =? 200 then
        json ← response_json body;
        j ← as_dict json;
        r ← score_startup (dict_get j "data" (VDict ∅));
        Ok (Scored r)
      else Ok FetchFailedError
  end.

Section Analyze.
Variable World : Type.
Variable requests_get : World -> string -> http_outcome * World.

(** [if st.button("Analyze"): ...] once the button is pressed. *)
Definition analyze (w : World) (single_domain : string)
    : result analyze_view * World :=
  if String.eqb single_domain "" then (Ok EnterDomainWarning, w)
  else
    let '(o, w') := requests_get w single_domain in
    (analyze_response o, w').
End Analyze.

Arguments analyze {World} requests_get w single_domain.

(** An entry of a type that earns nothing, with a confidence that does
    not compare with a number. *)
Definition role_entry : pydict :=
  <["type" := VStr "role"]> (<["confidence" := VNone]> ∅).

(** The text "ſaas" in UTF-8: the long s, U+017F, is the two bytes C5
    BF.  In Python ['ſaas'.upper()] is ['SAAS'], while ['ſaas'.lower()]
    is ['ſaas'] itself. *)
Definition long_s_saas : string :=
  String (ascii_of_N 197) (String (ascii_of_N 191) "aas").

(** An entry of a scoring type with nothing else. *)
Definition generic_entry : pydict := <["type" := VStr "generic"]> ∅.

(** * Properties *)

(** ** The result dict *)

Section MakeResult.
Variables (org domain industry emails_found employees : value) (score : Z).

Lemma make_result_score :
make_result org domain industry emails_found employees score !! "score"
= Some (VInt score).
Proof. reflexivity. Qed.

Lemma make_result_organization :
make_result org domain industry emails_found employees score !! "organization"
= Some (org).
Proof. reflexivity. Qed.

Lemma make_result_domain :
make_result org domain industry emails_found employees score !! "domain"
= Some (domain).
Proof. reflexivity. Qed.

Lemma make_result_industry :
make_result org domain industry emails_found employees score !! "industry"
= Some (industry).
Proof. reflexivity. Qed.

Lemma make_result_emails_found :
make_result org domain industry emails_found employees score !! "emails_found"
= Some (emails_found).
Proof. reflexivity. Qed.

Lemma make_result_employees :
make_result org domain industry emails_found employees score !! "employees"
= Some (employees).
Proof. reflexivity. Qed.

Lemma make_result_no_score_group :
make_result org domain industry emails_found employees score !! "score_group"
= None.
Proof. reflexivity. Qed.
End MakeResult.

(** ** The error monad *)

Lemma bind_Ok {A B} (f : A -> result B) (a : A) : (Ok a ≫= f) = f a.
Proof. reflexivity. Qed.

Lemma bind_Raise {A B} (f : A -> result B) (e : exn) : (Raise e ≫= f) = Raise e.
Proof. reflexivity. Qed.

Lemma bind_returns {A B} (f : A -> result B) (m : result A) :
  returns (m ≫= f) <-> exists a, m = Ok a /\ returns (f a).
Proof.
  destruct m as [a|e]; simpl; split.
  - intros H. exists a. split; [reflexivity | exact H].
  - intros (a' & Ha & H). injection Ha as ->. exact H.
  - intros [b Hb]. discriminate Hb.
  - intros (a' & Ha & _). discriminate Ha.
Qed.

Lemma returns_Ok {A} (a : A) : returns (Ok a).
Proof. exists a. reflexivity. Qed.

Lemma not_returns_Raise {A} (e : exn) : ~ returns (@Raise A e).
Proof. intros [a Ha]. discriminate Ha. Qed.


(** ** The score inside the result *)

Lemma score_startup_total_score (d : pydict) :
  score_of (score_startup (VDict d)) = (fun s => Some (VInt s)) <$> total_score d.
Proof.
  unfold score_of, score_startup, total_score, score_terms, webmail_term. simpl.
  destruct (email_volume_term _) as [t1|e]; [simpl | reflexivity].
  destruct (industry_term _) as [t2|e]; [simpl | reflexivity].
  destruct (headcount_term _) as [t3|e]; [simpl | reflexivity].
  destruct (py_iter _) as [emails|e]; [simpl | reflexivity].
  destruct (email_loop _ emails) as [s|e]; reflexivity.
Qed.

Lemma score_startup_eq (d : pydict) :
  score_startup (VDict d) = result_row d <$> total_score d.
Proof.
  unfold score_startup, total_score, score_terms, webmail_term, result_row. simpl.
  destruct (email_volume_term _) as [t1|e]; [simpl | reflexivity].
  destruct (industry_term _) as [t2|e]; [simpl | reflexivity].
  destruct (headcount_term _) as [t3|e]; [simpl | reflexivity].
  destruct (py_iter _) as [emails|e]; [simpl | reflexivity].
  destruct (email_loop _ emails) as [s|e]; reflexivity.
Qed.

Lemma score_startup_Ok_inv (data : value) (r : pydict) :
  score_startup data = Ok r ->
  exists d s, data = VDict d /\ total_score d = Ok s /\ r = result_row d s.
Proof.
  destruct data as [| | | | |d]; try discriminate.
  rewrite score_startup_eq.
  destruct (total_score d) as [s|e] eqn:E; [| discriminate].
  intros [= <-]. exists d, s. split; [reflexivity | split; [exact E | reflexivity]].
Qed.

Lemma score_startup_returns (d : pydict) :
  returns (score_startup (VDict d)) <-> returns (total_score d).
Proof.
  split.
  - intros [r Hr]. apply score_startup_Ok_inv in Hr as (d' & s & [= <-] & Hs & _).
    exists s. exact Hs.
  - intros [s Hs]. pose proof (score_startup_total_score d) as H.
    rewrite Hs in H. destruct (score_startup (VDict d)) as [r|e].
    + apply returns_Ok.
    + discriminate H.
Qed.

(** ** Tiers *)

(** C7. The tier depends on the integer score alone, and each band
    includes its lower edge: every score from 75 on is "High", every
    score from 40 up to 74 is "Mid", every score below 40 is "Low"; so
    75 is "High", 74 and 40 are "Mid", 39 is "Low". *)
Theorem classify_score_bands (score : Z) :
  (75 <= score -> classify_score score = "High") /\
  (40 <= score < 75 -> classify_score score = "Mid") /\
  (score < 40 -> classify_score score = "Low") /\
  classify_score 75 = "High" /\ classify_score 74 = "Mid" /\
  classify_score 40 = "Mid" /\ classify_score 39 = "Low".
Proof.
  unfold classify_score. repeat split; try reflexivity.
  - intros H. destruct (Z.leb_spec 75 score); [reflexivity | lia].
  - intros [H1 H2].
    destruct (Z.leb_spec 75 score); [lia |].
    destruct (Z.leb_spec 40 score); [reflexivity | lia].
  - intros H.
    destruct (Z.leb_spec 75 score); [lia |].
    destruct (Z.leb_spec 40 score); [lia | reflexivity].
Qed.

Lemma classify_score_bands_witness :
  classify_score 80 = "High" /\ classify_score 50 = "Mid" /\
  classify_score 0 = "Low".
Proof.
  split; [| split].
  - destruct (classify_score_bands 80) as (H & _). apply H. lia.
  - destruct (classify_score_bands 50) as (_ & H & _). apply H. lia.
  - destruct (classify_score_bands 0) as (_ & _ & H & _). apply H. lia.
Defined.

(** ** The terms of the score *)

Lemma email_volume_term_le_30 (v : value) (t : Z) :
  email_volume_term v = Ok t -> t <= 30.
Proof.
  unfold email_volume_term, min_30_times_10.
  destruct (truthy v); [| intros [= <-]; lia].
  destruct (as_num v) as [n|]; [| discriminate].
  intros [= <-]. lia.
Qed.

Lemma email_volume_term_int (n : Z) :
  email_volume_term (VInt n) = Ok (if n =? 0 then 0 else Z.min 30 (n * 10)).
Proof.
  unfold email_volume_term, min_30_times_10. simpl.
  destruct (n =? 0); reflexivity.
Qed.

(** C6. The email-volume term of a record is [min(30, emails_count * 10)]
    when [emails_count] is a nonzero integer and 0 when it is zero or
    absent; whenever the term is computed it is at most 30, and an
    [emails_count] of 50 contributes exactly 30.  A record that holds
    nothing but [emails_count] scores exactly this term. *)
Theorem email_volume_term_capped (d : pydict) :
  let term := email_volume_term (dict_get d "emails_count" (VInt 0)) in
  (d !! "emails_count" = None -> term = Ok 0) /\
  (forall n, d !! "emails_count" = Some (VInt n) ->
     term = Ok (if n =? 0 then 0 else Z.min 30 (n * 10))) /\
  (forall t, term = Ok t -> t <= 30) /\
  email_volume_term (VInt 50) = Ok 30 /\
  (forall n, score_of (score_startup (VDict (<["emails_count" := VInt n]> ∅)))
             = Ok (Some (VInt (if n =? 0 then 0 else Z.min 30 (n * 10))))).
Proof.
  cbv zeta. unfold dict_get. repeat split.
  - intros ->. reflexivity.
  - intros n ->. apply email_volume_term_int.
  - apply email_volume_term_le_30.
  - intros n. rewrite score_startup_total_score. unfold total_score, dict_get.
    rewrite lookup_insert_eq, !lookup_insert_ne, !lookup_empty by discriminate.
    unfold score_terms. simpl. rewrite email_volume_term_int. simpl.
    do 3 f_equal. lia.
Qed.

Lemma email_volume_term_capped_witness :
  email_volume_term (dict_get (<["emails_count" := VInt 50]> ∅) "emails_count" (VInt 0))
  = Ok (if 50 =? 0 then 0 else Z.min 30 (50 * 10)).
Proof.
  destruct (email_volume_term_capped (<["emails_count" := VInt 50]> ∅))
    as (_ & H & _).
  apply H. reflexivity.
Defined.

(** ** The per-email bonus *)

Lemma email_step_ceo (score : Z) : email_step score ceo_email = Ok (score + 15).
Proof.
  assert (Hbody : forall s, email_step s ceo_email = Ok (s + 10 + 5)).
  { intros s. unfold email_step.
    replace (subscript ceo_email "type") with (Ok (VStr "generic"))
      by (vm_compute; reflexivity).
    reflexivity. }
  rewrite Hbody. f_equal. lia.
Qed.

Lemma email_loop_ceo (n : nat) (score : Z) :
  email_loop score (replicate n ceo_email) = Ok (score + 15 * Z.of_nat n).
Proof.
  revert score. induction n as [|n IH]; intros score.
  - simpl. f_equal. lia.
  - cbn [replicate email_loop]. rewrite email_step_ceo, bind_Ok, IH.
    f_equal. lia.
Qed.

Lemma total_score_only_emails (emails : list value) :
  total_score (<["emails" := VList emails]> ∅) = email_loop 0 emails.
Proof. reflexivity. Qed.

(** C5. The per-email bonus has no upper bound and the total is not
    clamped: ten "generic" entries with confidence 90 and position "CEO"
    add exactly 10 * (10 + 5) = 150 to the running score, a record made
    of them scores 150, above 100, and [n] such entries score [15 * n],
    so every bound is exceeded by some record. *)
Theorem per_email_bonus_uncapped :
  (forall score, email_loop score (replicate 10 ceo_email) = Ok (score + 150)) /\
  score_of (score_startup (VDict (<["emails" := VList (replicate 10 ceo_email)]> ∅)))
    = Ok (Some (VInt 150)) /\
  100 < 150 /\
  (forall n : nat,
     score_of (score_startup (VDict (<["emails" := VList (replicate n ceo_email)]> ∅)))
     = Ok (Some (VInt (15 * Z.of_nat n)))) /\
  (forall bound : Z, exists data r s,
     score_startup data = Ok r /\ r !! "score" = Some (VInt s) /\ bound < s).
Proof.
  assert (Hn : forall n : nat,
     score_of (score_startup (VDict (<["emails" := VList (replicate n ceo_email)]> ∅)))
     = Ok (Some (VInt (15 * Z.of_nat n)))).
  { intros n. rewrite score_startup_total_score, total_score_only_emails.
    rewrite email_loop_ceo. reflexivity. }
  split; [| split; [| split; [| split]]].
  - intros score. rewrite (email_loop_ceo 10). reflexivity.
  - apply (Hn 10%nat).
  - lia.
  - exact Hn.
  - intros bound.
    pose proof (Hn (Z.to_nat (Z.max 0 bound) + 1)%nat) as H.
    destruct (score_startup _) as [r|e] eqn:E; [| discriminate H].
    injection H as H.
    eexists _, r, _. split; [exact E | split; [exact H |]]. lia.
Qed.

(** ** The end-to-end example *)

(** C1 (as amended). For the record [{domain: "stripe.com", industry:
    "Technology", employees_count: 500, emails_count: 2, webmail: false,
    emails: [{type: "generic", confidence: 95, position: "CTO"}]}] the
    score is 45: 20 from the email-volume term, 10 from the industry, 10
    from the confidence bonus, 5 from the position bonus, and nothing
    from the headcount, which [score_startup] reads from the key
    [employees], not [employees_count].  Its tier is "Mid".  With the
    headcount given as [employees: 500] the headcount term is 20, the
    score is 65 and the tier is "Mid". *)
Theorem stripe_example_score :
  score_of (score_startup stripe_record) = Ok (Some (VInt 45)) /\
  classify_score 45 = "Mid" /\
  email_volume_term (dict_get stripe_fields "emails_count" (VInt 0)) = Ok 20 /\
  industry_term (dict_get stripe_fields "industry" (VStr "")) = Ok 10 /\
  headcount_term (dict_get stripe_fields "employees" (VInt 0)) = Ok 0 /\
  webmail_term stripe_fields = 0 /\
  confidence_bonus cto_fields = Ok 10 /\
  position_bonus cto_fields = Ok 5 /\
  headcount_term (dict_get stripe_fields_employees "employees" (VInt 0)) = Ok 20 /\
  score_of (score_startup stripe_record_employees) = Ok (Some (VInt 65)) /\
  classify_score 65 = "Mid".
Proof. repeat split; vm_compute; reflexivity. Qed.

(** The score of the example record is not 65. *)
Lemma stripe_example_score_not_65 :
  score_of (score_startup stripe_record) <> Ok (Some (VInt 65)).
Proof. vm_compute. intros [=]. Qed.

(** ** Letter case *)

Lemma lower_char_swap_case (c : ascii) : lower_char (swap_case c) = lower_char c.
Proof. destruct c as [[] [] [] [] [] [] [] []]; reflexivity. Qed.

Lemma lower_recase (mask : list bool) (s : string) :
  lower (recase mask s) = lower s.
Proof.
  revert mask. induction s as [|c s IH]; intros [|b mask]; try reflexivity.
  simpl. rewrite IH. destruct b; [rewrite lower_char_swap_case |]; reflexivity.
Qed.

Lemma truthy_recase (mask : list bool) (s : string) :
  truthy (VStr (recase mask s)) = truthy (VStr s).
Proof. destruct s, mask; reflexivity. Qed.

Lemma industry_term_recase (mask : list bool) (s : string) :
  industry_term (VStr (recase mask s)) = industry_term (VStr s).
Proof.
  unfold industry_term. rewrite truthy_recase. simpl py_lower.
  rewrite lower_recase. reflexivity.
Qed.

Lemma confidence_bonus_insert_position (v : value) (e : pydict) :
  confidence_bonus (<["position" := v]> e) = confidence_bonus e.
Proof.
  unfold confidence_bonus, dict_get.
  rewrite lookup_insert_ne by discriminate. reflexivity.
Qed.

Lemma position_bonus_recase (mask : list bool) (s : string) (e : pydict) :
  position_bonus (<["position" := VStr (recase mask s)]> e)
  = position_bonus (<["position" := VStr s]> e).
Proof.
  unfold position_bonus, dict_get. rewrite !lookup_insert_eq.
  cbn [default from_option]. unfold id. cbv zeta.
  rewrite truthy_recase. simpl py_lower.
  rewrite lower_recase. reflexivity.
Qed.

Lemma email_step_recase (mask : list bool) (s : string) (e : pydict) (score : Z) :
  email_step score (VDict (<["position" := VStr (recase mask s)]> e))
  = email_step score (VDict (<["position" := VStr s]> e)).
Proof.
  unfold email_step, subscript.
  rewrite !lookup_insert_ne by discriminate.
  destruct (e !! "type") as [ty|]; [| reflexivity].
  rewrite !bind_Ok. destruct (value_in ty email_types); [| reflexivity].
  cbn [as_dict]. rewrite !bind_Ok, !confidence_bonus_insert_position.
  destruct (confidence_bonus e) as [c|x]; [| reflexivity].
  rewrite !bind_Ok, position_bonus_recase. reflexivity.
Qed.

Lemma email_loop_app (score : Z) (l1 l2 : list value) :
  email_loop score (l1 ++ l2) = email_loop score l1 ≫= fun s => email_loop s l2.
Proof.
  revert score. induction l1 as [|e l1 IH]; intros score; [reflexivity |].
  cbn [app email_loop]. destruct (email_step score e) as [s|x]; [| reflexivity].
  rewrite !bind_Ok. apply IH.
Qed.

Lemma total_score_insert_industry (d : pydict) (v : value) :
  total_score (<["industry" := v]> d)
  = score_terms (dict_get d "emails_count" (VInt 0)) v
      (dict_get d "employees" (VInt 0)) (dict_get d "webmail" VNone)
      (dict_get d "emails" (VList [])).
Proof.
  unfold total_score, dict_get.
  rewrite lookup_insert_eq, !lookup_insert_ne by discriminate. reflexivity.
Qed.

Lemma total_score_insert_emails (d : pydict) (v : value) :
  total_score (<["emails" := v]> d)
  = score_terms (dict_get d "emails_count" (VInt 0))
      (dict_get d "industry" (VStr "")) (dict_get d "employees" (VInt 0))
      (dict_get d "webmail" VNone) v.
Proof.
  unfold total_score, dict_get.
  rewrite lookup_insert_eq, !lookup_insert_ne by discriminate. reflexivity.
Qed.


(** ** When the scorer returns *)

Ltac returns_cases :=
  split; intros H;
  first [ reflexivity
        | apply returns_Ok
        | discriminate H
        | exfalso; exact (not_returns_Raise _ H) ].

Lemma email_volume_term_returns (v : value) :
  returns (email_volume_term v) <-> falsy_or_num v = true.
Proof.
  unfold email_volume_term, min_30_times_10, falsy_or_num, is_num.
  destruct (truthy v), (as_num v); simpl; returns_cases.
Qed.

Lemma headcount_term_returns (v : value) :
  returns (headcount_term v) <-> falsy_or_num v = true.
Proof.
  unfold headcount_term, py_gt, falsy_or_num, is_num.
  destruct (truthy v), (as_num v); simpl; returns_cases.
Qed.

Lemma industry_term_returns (v : value) :
  returns (industry_term v) <-> falsy_or_str v = true.
Proof.
  unfold industry_term, falsy_or_str.
  destruct (truthy v), v; simpl; returns_cases.
Qed.

Lemma confidence_bonus_returns (e : pydict) :
  returns (confidence_bonus e) <-> is_num (dict_get e "confidence" (VInt 0)) = true.
Proof.
  unfold confidence_bonus, py_ge, is_num.
  destruct (as_num _); simpl; returns_cases.
Qed.

Lemma position_bonus_returns (e : pydict) :
  returns (position_bonus e) <-> falsy_or_str (dict_get e "position" VNone) = true.
Proof.
  unfold position_bonus, falsy_or_str. cbv zeta.
  destruct (truthy _), (dict_get e "position" VNone); simpl; returns_cases.
Qed.

Lemma email_step_returns (score : Z) (email : value) :
  returns (email_step score email) <-> email_ok email = true.
Proof.
  unfold email_step, email_ok, subscript.
  destruct email as [| | | | |e]; try (simpl; returns_cases).
  destruct (e !! "type") as [ty|]; [| simpl; returns_cases].
  rewrite bind_Ok. destruct (value_in ty email_types); [| returns_cases].
  cbn [as_dict]. rewrite bind_Ok, andb_true_iff.
  rewrite <- confidence_bonus_returns, <- position_bonus_returns.
  destruct (confidence_bonus e) as [c|x], (position_bonus e) as [p|y]; simpl.
  - split; intros _; [split |]; apply returns_Ok.
  - split; [intros H | intros [_ H]]; destruct (not_returns_Raise _ H).
  - split; [intros H | intros [H _]]; destruct (not_returns_Raise _ H).
  - split; [intros H | intros [H _]]; destruct (not_returns_Raise _ H).
Qed.

Lemma email_loop_returns (score : Z) (emails : list value) :
  returns (email_loop score emails) <-> forallb email_ok emails = true.
Proof.
  revert score. induction emails as [|email rest IH]; intros score.
  - simpl. returns_cases.
  - cbn [email_loop forallb]. rewrite andb_true_iff, <- (email_step_returns score).
    destruct (email_step score email) as [s|x]; simpl.
    + rewrite IH. split; [intros H; split; [apply returns_Ok | exact H] | tauto].
    + split; [intros H | intros [H _]]; destruct (not_returns_Raise _ H).
Qed.

Lemma iterate_emails_returns (score : Z) (v : value) :
  returns (py_iter v ≫= email_loop score) <-> emails_ok v = true.
Proof.
  destruct v as [| | |s|l|d]; try (simpl; returns_cases).
  - destruct s as [|c s]; simpl; returns_cases.
  - simpl. apply email_loop_returns.
  - simpl. destruct (map_to_list d) as [|[k x] kvs]; simpl; returns_cases.
Qed.

Lemma score_terms_returns (email_count industry employees webmail emails : value) :
  returns (score_terms email_count industry employees webmail emails) <->
  falsy_or_num email_count && falsy_or_str industry && falsy_or_num employees
  && emails_ok emails = true.
Proof.
  unfold score_terms. rewrite !andb_true_iff.
  rewrite <- email_volume_term_returns, <- industry_term_returns,
    <- headcount_term_returns.
  destruct (email_volume_term email_count) as [t1|x]; simpl;
    [| split; [intros H | intros [[[H _] _] _]]; destruct (not_returns_Raise _ H)].
  destruct (industry_term industry) as [t2|x]; simpl;
    [| split; [intros H | intros [[[_ H] _] _]]; destruct (not_returns_Raise _ H)].
  destruct (headcount_term employees) as [t3|x]; simpl;
    [| split; [intros H | intros [[_ H] _]]; destruct (not_returns_Raise _ H)].
  rewrite <- (iterate_emails_returns (0 + t1 + t2 + t3 + (if truthy webmail then 10 else 0))).
  split; [intros H; repeat split; try apply returns_Ok; exact H | intros [_ H]; exact H].
Qed.

Lemma score_startup_returns_iff (data : value) :
  returns (score_startup data) <-> well_formed data = true.
Proof.
  destruct data as [| | | | |d]; try (simpl; returns_cases).
  rewrite score_startup_returns. unfold total_score, well_formed.
  apply score_terms_returns.
Qed.

(** ** Absent fields *)




Lemma position_bonus_absent (e : pydict) :
  e !! "position" = None -> position_bonus e = Ok 0.
Proof. unfold position_bonus, dict_get. intros ->. reflexivity. Qed.





(** ** The organization of a result *)

Lemma result_row_organization (d : pydict) (s : Z) :
  result_row d s !! "organization"
  = Some (match d !! "organization" with
          | Some org => org
          | None => match d !! "domain" with
                    | Some domain => domain
                    | None => VStr "N/A"
                    end
          end).
Proof.
  unfold result_row. rewrite make_result_organization. unfold dict_get.
  destruct (d !! "organization"), (d !! "domain"); reflexivity.
Qed.

(** C10 (as amended). The organization of a result falls back from [organization] to
    [domain] to "N/A": whenever [score_startup] returns for a record
    with neither an [organization] nor a [domain], the organization of
    the result is the literal "N/A", and it does return for every such
    record that is well formed. *)
Theorem organization_fallback (d : pydict) :
  (forall r, score_startup (VDict d) = Ok r ->
     r !! "organization"
     = Some (match d !! "organization" with
             | Some org => org
             | None => match d !! "domain" with
                       | Some domain => domain
                       | None => VStr "N/A"
                       end
             end)) /\
  (d !! "organization" = None -> d !! "domain" = None ->
     forall r, score_startup (VDict d) = Ok r ->
       r !! "organization" = Some (VStr "N/A")) /\
  (d !! "organization" = None -> d !! "domain" = None ->
     well_formed (VDict d) = true ->
     exists r, score_startup (VDict d) = Ok r /\
       r !! "organization" = Some (VStr "N/A")).
Proof.
  assert (Hchain : forall r, score_startup (VDict d) = Ok r ->
     r !! "organization"
     = Some (match d !! "organization" with
             | Some org => org
             | None => match d !! "domain" with
                       | Some domain => domain
                       | None => VStr "N/A"
                       end
             end)).
  { intros r Hr. apply score_startup_Ok_inv in Hr as (d' & s & [= <-] & _ & ->).
    apply result_row_organization. }
  split; [exact Hchain |]. split.
  - intros Horg Hdom r Hr. rewrite (Hchain r Hr), Horg, Hdom. reflexivity.
  - intros Horg Hdom Hwf. apply score_startup_returns_iff in Hwf as [r Hr].
    exists r. split; [exact Hr |].
    rewrite (Hchain r Hr), Horg, Hdom. reflexivity.
Qed.

Lemma organization_fallback_witness :
  exists r, score_startup (VDict (<["emails_count" := VInt 2]> ∅)) = Ok r /\
    r !! "organization" = Some (VStr "N/A").
Proof.
  destruct (organization_fallback (<["emails_count" := VInt 2]> ∅)) as (_ & _ & H).
  apply H; reflexivity.
Defined.

(** A record with neither an [organization] nor a [domain] on which
    [score_startup] returns no result at all. *)
Lemma no_organization_without_a_result :
  (<["industry" := VInt 5]> ∅ : pydict) !! "organization" = None /\
  (<["industry" := VInt 5]> ∅ : pydict) !! "domain" = None /\
  score_startup numeric_industry_record = Raise AttributeError /\
  ~ returns (score_startup numeric_industry_record).
Proof.
  split; [reflexivity |]. split; [reflexivity |].
  split; [reflexivity |]. intros [r Hr]. discriminate Hr.
Qed.

(** ** The batch loop *)

Lemma row_for_not_both (domain : string) (json data : value) (r : pydict) :
  subscript json "data" = Ok data -> score_startup data = Ok r ->
  ~ fetch_fails (Response 200 (Some json)).
Proof.
  intros Hdata Hr [H|[e He]]; [congruence |].
  simpl in He. rewrite Hdata in He. simpl in He. rewrite Hr in He. discriminate He.
Qed.

Lemma loop_body_row (results : list pydict) (domain : string) (o : http_outcome) :
  exists row, loop_body results domain o = results ++ [row] /\ row_for domain o row.
Proof.
  unfold loop_body, try_block.
  destruct o as [|status_code body].
  { exists (placeholder domain). split; [reflexivity |].
    apply row_placeholder. exact I. }
  destruct (Z.eqb_spec status_code 200) as [->|Hstatus].
  2:{ exists (placeholder domain). split; [reflexivity |].
      apply row_placeholder. left. exact Hstatus. }
  destruct body as [json|]; simpl.
  2:{ exists (placeholder domain). split; [reflexivity |].
      apply row_placeholder. right. exists JSONDecodeError. reflexivity. }
  destruct (subscript json "data") as [data|e] eqn:Hdata; simpl.
  2:{ exists (placeholder domain). split; [reflexivity |].
      apply row_placeholder. right. exists e. simpl. rewrite Hdata. reflexivity. }
  destruct (score_startup data) as [r|e] eqn:Hr; simpl.
  - exists r. split; [reflexivity |]. eapply row_scored; eassumption.
  - exists (placeholder domain). split; [reflexivity |].
    apply row_placeholder. right. exists e. simpl. rewrite Hdata. simpl.
    rewrite Hr. reflexivity.
Qed.

Section BatchLoopFacts.
Context {World : Type} (requests_get : World -> string -> http_outcome * World).

Lemma batch_loop_rows (w : World) (domains : list string) (acc : list pydict) :
  exists rows, (batch_loop requests_get w domains acc).1 = acc ++ rows /\
    Forall3 row_for domains (responses requests_get w domains) rows.
Proof.
  revert w acc. induction domains as [|domain rest IH]; intros w acc.
  - exists []. split; [simpl; rewrite app_nil_r; reflexivity | constructor].
  - cbn [batch_loop responses].
    destruct (requests_get w domain) as [o w'].
    destruct (loop_body_row acc domain o) as (row & -> & Hrow).
    destruct (IH w' (acc ++ [row])) as (rows & -> & Hrows).
    exists (row :: rows). split.
    + rewrite <- app_assoc. reflexivity.
    + constructor; assumption.
Qed.

Lemma batch_loop_Forall3 (w : World) (domains : list string) :
  Forall3 row_for domains (responses requests_get w domains)
    (batch_loop requests_get w domains []).1.
Proof.
  destruct (batch_loop_rows w domains []) as (rows & -> & H). exact H.
Qed.
End BatchLoopFacts.

Lemma placeholder_fields (domain : string) :
  placeholder domain !! "organization" = Some (VStr "N/A") /\
  placeholder domain !! "domain" = Some (VStr domain) /\
  placeholder domain !! "industry" = Some (VStr "N/A") /\
  placeholder domain !! "emails_found" = Some (VInt 0) /\
  placeholder domain !! "employees" = Some (VStr "N/A") /\
  placeholder domain !! "score" = Some (VInt 0).
Proof. repeat split; reflexivity. Qed.

(** C2 (as amended). For every ordered domain list the batch loop
    returns exactly one row per domain, in input order.  A domain whose
    fetch fails (the request raises, the status is not 200, or decoding
    or scoring the answer raises) gets the fixed placeholder row:
    organization "N/A", the input domain, industry "N/A", emails_found
    0, employees "N/A", score 0; the loop goes on with the next domain.
    A domain whose fetch succeeds gets the row that [score_startup]
    returns for its data.  The tier of the placeholder's score 0 is
    "Low". *)
Theorem batch_loop_resilient {World : Type}
    (requests_get : World -> string -> http_outcome * World)
    (w : World) (domains : list string) :
  let results := (batch_loop requests_get w domains []).1 in
  let answers := responses requests_get w domains in
  length results = length domains /\
  Forall3 row_for domains answers results /\
  (forall (i : nat) domain o,
     domains !! i = Some domain -> answers !! i = Some o -> fetch_fails o ->
     results !! i = Some (placeholder domain)) /\
  (forall (i : nat) json data r,
     answers !! i = Some (Response 200 (Some json)) ->
     subscript json "data" = Ok data -> score_startup data = Ok r ->
     results !! i = Some r) /\
  (forall domain,
     placeholder domain !! "organization" = Some (VStr "N/A") /\
     placeholder domain !! "domain" = Some (VStr domain) /\
     placeholder domain !! "industry" = Some (VStr "N/A") /\
     placeholder domain !! "emails_found" = Some (VInt 0) /\
     placeholder domain !! "employees" = Some (VStr "N/A") /\
     placeholder domain !! "score" = Some (VInt 0)) /\
  classify_score 0 = "Low".
Proof.
  cbv zeta. pose proof (batch_loop_Forall3 requests_get w domains) as HF.
  split; [symmetry; eapply Forall3_length_lr; exact HF |].
  split; [exact HF |].
  split; [| split; [| split; [exact placeholder_fields | reflexivity]]].
  - intros i domain o Hd Ho Hfail.
    destruct (Forall3_lookup_l _ _ _ _ _ _ HF Hd) as (o' & row & Ho' & Hrow & Hfor).
    rewrite Ho in Ho'. injection Ho' as <-.
    rewrite Hrow. f_equal.
    destruct Hfor as [domain json data r Hdata Hr|domain o _]; [| reflexivity].
    destruct (row_for_not_both domain json data r Hdata Hr Hfail).
  - intros i json data r Ho Hdata Hr.
    destruct (Forall3_lookup_m _ _ _ _ _ _ HF Ho) as (domain & row & _ & Hrow & Hfor).
    rewrite Hrow. f_equal.
    inversion Hfor as [domain' json' data' r' Hdata' Hr'|domain' o' Hfail]; subst.
    + rewrite Hdata in Hdata'. injection Hdata' as <-.
      rewrite Hr in Hr'. injection Hr' as <-. reflexivity.
    + destruct (row_for_not_both domain json data r Hdata Hr Hfail).
Qed.

Lemma batch_loop_resilient_witness :
  length three_results = 3%nat /\
  three_results !! 1%nat = Some (placeholder "b.com") /\
  Ok <$> three_results !! 0%nat
    = Some (score_startup (record_with_emails "a.com" 1)) /\
  Ok <$> three_results !! 2%nat = Some (score_startup stripe_record_employees).
Proof.
  destruct (batch_loop_resilient scripted three_world three_domains)
    as (Hlen & _ & Hfail & Hok & _).
  split; [exact Hlen |]. split; [| split].
  - apply (Hfail 1%nat "b.com" (Response 500 None)); [reflexivity | reflexivity |].
    left. lia.
  - destruct (score_startup (record_with_emails "a.com" 1)) as [r|e] eqn:Hr;
      [| vm_compute in Hr; discriminate Hr].
    unfold three_results.
    rewrite (Hok 0%nat (VDict (<["data" := record_with_emails "a.com" 1]> ∅))
               (record_with_emails "a.com" 1) r); [reflexivity.. | exact Hr].
  - destruct (score_startup stripe_record_employees) as [r|e] eqn:Hr;
      [| vm_compute in Hr; discriminate Hr].
    unfold three_results.
    rewrite (Hok 2%nat (VDict (<["data" := stripe_record_employees]> ∅))
               stripe_record_employees r); [reflexivity.. | exact Hr].
Defined.

(** The rows of the batch loop have no [score_group] entry: the
    placeholder of a failed fetch carries the six fields above only. *)
Lemma placeholder_has_no_score_group :
  failed_results = [placeholder "a.com"] /\
  placeholder "a.com" !! "score_group" = None /\
  placeholder "a.com" !! "score_group" <> Some (VStr "Low").
Proof.
  split; [vm_compute; reflexivity |].
  split; [reflexivity | discriminate].
Qed.

(** ** Rows and tiers *)

Lemma result_row_plain (d : pydict) (s : Z) : plain_row (result_row d s).
Proof. split; [exists s |]; reflexivity. Qed.

Lemma placeholder_plain (domain : string) : plain_row (placeholder domain).
Proof. split; [exists 0 |]; reflexivity. Qed.

Lemma row_for_plain (domain : string) (o : http_outcome) (row : pydict) :
  row_for domain o row -> plain_row row.
Proof.
  intros [domain' json data r _ Hr|domain' o' _].
  - apply score_startup_Ok_inv in Hr as (d & s & _ & _ & ->).
    apply result_row_plain.
  - apply placeholder_plain.
Qed.

Lemma batch_loop_plain {World : Type}
    (requests_get : World -> string -> http_outcome * World)
    (w : World) (domains : list string) :
  Forall plain_row (batch_loop requests_get w domains []).1.
Proof.
  pose proof (batch_loop_Forall3 requests_get w domains) as HF.
  induction HF as [|domain o row ds os rows Hrow _ IH]; constructor.
  - eapply row_for_plain. exact Hrow.
  - exact IH.
Qed.

Lemma batch_loop_length {World : Type}
    (requests_get : World -> string -> http_outcome * World)
    (w : World) (domains : list string) :
  length (batch_loop requests_get w domains []).1 = length domains.
Proof.
  symmetry. eapply Forall3_length_lr. apply batch_loop_Forall3.
Qed.

Lemma score_key_tier_row (row : pydict) : score_key (tier_row row) = score_key row.
Proof.
  unfold score_key, tier_row. rewrite lookup_insert_ne by discriminate. reflexivity.
Qed.

Lemma tier_row_grouped (row : pydict) : grouped_row (tier_row row).
Proof.
  unfold grouped_row. rewrite score_key_tier_row.
  unfold tier_row. apply lookup_insert_eq.
Qed.

Lemma with_score_group_plain (rows : list pydict) :
  Forall plain_row rows -> with_score_group rows = Ok (tier_row <$> rows).
Proof.
  induction 1 as [|row rows [[s Hs] _] _ IH]; [reflexivity |].
  assert (Hkey : score_key row = s) by (unfold score_key; rewrite Hs; reflexivity).
  cbn [with_score_group]. unfold row_score. rewrite Hs, bind_Ok, IH, bind_Ok.
  rewrite fmap_cons. unfold tier_row at 2. rewrite Hkey. reflexivity.
Qed.

Section Tables.
Variable sort_values : list pydict -> list pydict.
Hypothesis sort_values_perm : forall rows, Permutation (sort_values rows) rows.

Variable results : list pydict.
Hypothesis results_nonempty : results <> [].
Hypothesis results_plain : Forall plain_row results.

Lemma sorted_frame_eq : sorted_frame sort_values results = Ok (sort_values results).
Proof.
  destruct results; [contradiction | reflexivity].
Qed.

Lemma sorted_plain : Forall plain_row (sort_values results).
Proof.
  eapply Permutation_Forall; [| exact results_plain].
  symmetry. apply sort_values_perm.
Qed.

Lemma grouped_table_eq :
  grouped_table sort_values results = Ok (tier_row <$> sort_values results).
Proof.
  unfold grouped_table. rewrite sorted_frame_eq, bind_Ok.
  apply with_score_group_plain, sorted_plain.
Qed.

Lemma result_tables_eq :
  result_tables sort_values results
  = Ok (sort_values results, tier_row <$> take 10 (sort_values results)).
Proof.
  unfold result_tables. rewrite sorted_frame_eq, bind_Ok.
  rewrite (with_score_group_plain _ sorted_plain), !bind_Ok.
  rewrite (with_score_group_plain (take 10 (sort_values results))), bind_Ok.
  - reflexivity.
  - apply Forall_take, sorted_plain.
Qed.
End Tables.

(** ** The two sorting functions *)

Lemma insert_row_perm (strict : bool) (row : pydict) (l : list pydict) :
  Permutation (insert_row strict row l) (row :: l).
Proof.
  induction l as [|r rest IH]; [reflexivity |].
  cbn [insert_row]. destruct (if strict then _ else _); [reflexivity |].
  rewrite IH. apply perm_swap.
Qed.

Lemma insert_row_sorted (strict : bool) (row : pydict) (l : list pydict) :
  StronglySorted score_desc l -> StronglySorted score_desc (insert_row strict row l).
Proof.
  induction 1 as [|r rest Hsorted IH Hall].
  - repeat constructor.
  - cbn [insert_row].
    destruct (if strict then _ else _) eqn:Hcmp.
    + assert (Hle : score_key r <= score_key row) by (destruct strict; lia).
      constructor; [constructor; assumption |].
      constructor; [exact Hle |].
      eapply Forall_impl; [exact Hall |].
      unfold score_desc. intros x Hx. lia.
    + assert (Hle : score_key row <= score_key r) by (destruct strict; lia).
      constructor; [exact IH |].
      eapply Permutation_Forall; [symmetry; apply insert_row_perm |].
      constructor; [exact Hle | exact Hall].
Qed.

Lemma insertion_sorts_by_score (strict : bool) :
  sorts_by_score (foldr (insert_row strict) []).
Proof.
  intros rows. induction rows as [|row rows [IHp IHs]]; split.
  - reflexivity.
  - constructor.
  - cbn [foldr]. rewrite insert_row_perm, IHp. reflexivity.
  - cbn [foldr]. apply insert_row_sorted, IHs.
Qed.

Lemma stable_sort_sorts : sorts_by_score stable_sort.
Proof. apply (insertion_sorts_by_score false). Qed.

(** ** The result tables of a batch *)

Lemma batch_loop_nonempty {World : Type}
    (requests_get : World -> string -> http_outcome * World)
    (w : World) (domains : list string) :
  domains <> [] -> (batch_loop requests_get w domains []).1 <> [].
Proof.
  intros Hd Hr. apply (f_equal length) in Hr.
  rewrite batch_loop_length in Hr. destruct domains; [contradiction | discriminate Hr].
Qed.

(** A batch over no domain at all has no [score] column to sort by. *)
Lemma empty_batch_raises (sort_values : list pydict -> list pydict) :
  result_tables sort_values [] = Raise KeyError.
Proof. reflexivity. Qed.

(** C3 (what the code does). After a batch over at least one domain the
    grouping step does attach to every row of the sorted table the tier
    of its score, but the full table is then built again from the rows
    of the loop: in the full table that is displayed and exported no
    row, placeholder or not, has a [score_group]; only the rows of the
    top-10 view carry the tier of their score. *)
Theorem full_table_lacks_score_group {World : Type}
    (requests_get : World -> string -> http_outcome * World)
    (w : World) (domains : list string)
    (sort_values : list pydict -> list pydict) :
  (forall rows, Permutation (sort_values rows) rows) ->
  domains <> [] ->
  let results := (batch_loop requests_get w domains []).1 in
  exists results_df top10 grouped,
    result_tables sort_values results = Ok (results_df, top10) /\
    grouped_table sort_values results = Ok grouped /\
    length results_df = length domains /\
    Forall grouped_row grouped /\
    Forall (fun row => row !! "score_group" = None) results_df /\
    Forall grouped_row top10.
Proof.
  intros Hperm Hdomains results.
  assert (Hne : results <> []) by (apply batch_loop_nonempty; exact Hdomains).
  assert (Hplain : Forall plain_row results) by apply batch_loop_plain.
  exists (sort_values results), (tier_row <$> take 10 (sort_values results)),
    (tier_row <$> sort_values results).
  split; [apply result_tables_eq; assumption |].
  split; [apply grouped_table_eq; assumption |].
  split.
  { rewrite (Permutation_length (Hperm results)). apply batch_loop_length. }
  split; [| split].
  - apply Forall_fmap, Forall_true. intros row. apply tier_row_grouped.
  - eapply Forall_impl; [apply sorted_plain; assumption |].
    intros row [_ H]. exact H.
  - apply Forall_fmap, Forall_true. intros row. apply tier_row_grouped.
Qed.

Lemma full_table_lacks_score_group_witness :
  exists results_df top10 grouped,
    result_tables stable_sort failed_results = Ok (results_df, top10) /\
    grouped_table stable_sort failed_results = Ok grouped /\
    length results_df = length failed_domains /\
    Forall grouped_row grouped /\
    Forall (fun row => row !! "score_group" = None) results_df /\
    Forall grouped_row top10.
Proof.
  apply (full_table_lacks_score_group scripted failed_world failed_domains stable_sort).
  - intros rows. apply stable_sort_sorts.
  - discriminate.
Defined.

(** The tables of the one-domain batch whose fetch fails. *)
Example failed_batch_tables :
  result_tables stable_sort failed_results
  = Ok ([placeholder "a.com"],
        [<["score_group" := VStr "Low"]> (placeholder "a.com")]) /\
  grouped_table stable_sort failed_results
  = Ok [<["score_group" := VStr "Low"]> (placeholder "a.com")].
Proof. split; vm_compute; reflexivity. Qed.

(** The scores of the three-domain batch, in fetch order and sorted. *)
Example three_batch_scores :
  score_key <$> three_results = [10; 0; 65] /\
  (fun tables : list pydict * list pydict => score_key <$> tables.1)
    <$> result_tables stable_sort three_results
  = Ok [65; 10; 0] /\
  (fun tables : list pydict * list pydict =>
     (fun row : pydict => row !! "score_group") <$> tables.2)
    <$> result_tables stable_sort three_results
  = Ok [Some (VStr "Mid"); Some (VStr "Low"); Some (VStr "Low")].
Proof. repeat split; vm_compute; reflexivity. Qed.

(** * Further properties of the scorer *)

Lemma result_row_score (d : pydict) (s : Z) :
  result_row d s !! "score" = Some (VInt s).
Proof. unfold result_row. apply make_result_score. Qed.

(** ** The score as a sum *)

Lemma email_step_shift (score : Z) (email : value) :
  email_step score email = (fun b => score + b) <$> email_step 0 email.
Proof.
  unfold email_step.
  destruct (subscript email "type") as [ty|x]; [| reflexivity].
  rewrite !bind_Ok. destruct (value_in ty email_types).
  2:{ simpl. f_equal. lia. }
  destruct (as_dict email) as [e|x]; [| reflexivity].
  rewrite !bind_Ok.
  destruct (confidence_bonus e) as [c|x]; [| reflexivity].
  rewrite !bind_Ok.
  destruct (position_bonus e) as [p|x]; [| reflexivity].
  simpl. f_equal. lia.
Qed.

Lemma confidence_bonus_values (e : pydict) (c : Z) :
  confidence_bonus e = Ok c -> c = 0 \/ c = 10.
Proof.
  unfold confidence_bonus. destruct (py_ge _ 80) as [[]|x]; simpl;
    intros [= <-]; auto.
Qed.

Lemma position_bonus_values (e : pydict) (p : Z) :
  position_bonus e = Ok p -> p = 0 \/ p = 5.
Proof.
  unfold position_bonus. cbv zeta. destruct (truthy _); [| intros [= <-]; auto].
  destruct (py_lower _) as [s|x]; [rewrite bind_Ok | discriminate].
  destruct (str_in s positions); intros [= <-]; auto.
Qed.

Lemma email_step_bonus (email : value) (b : Z) :
  email_step 0 email = Ok b -> b = 0 \/ b = 5 \/ b = 10 \/ b = 15.
Proof.
  unfold email_step.
  destruct (subscript email "type") as [ty|x]; [| discriminate].
  rewrite bind_Ok. destruct (value_in ty email_types); [| intros [= <-]; auto].
  destruct (as_dict email) as [e|x]; [| discriminate].
  rewrite bind_Ok.
  destruct (confidence_bonus e) as [c|x] eqn:Hc; [| discriminate].
  rewrite bind_Ok.
  destruct (position_bonus e) as [p|x] eqn:Hp; [| discriminate].
  simpl. intros [= <-].
  destruct (confidence_bonus_values e c Hc), (position_bonus_values e p Hp); lia.
Qed.

Lemma email_loop_sum (score : Z) (emails : list value) (t : Z) :
  email_loop score emails = Ok t ->
  exists bs, Forall2 (fun e b => email_step 0 e = Ok b) emails bs /\
    t = score + sum_bonuses bs.
Proof.
  revert score. induction emails as [|email rest IH]; intros score.
  - intros [= <-]. exists []. split; [constructor | simpl; lia].
  - cbn [email_loop]. rewrite email_step_shift.
    destruct (email_step 0 email) as [b|x] eqn:Hb; [| discriminate].
    simpl. intros Hrest. destruct (IH _ Hrest) as (bs & Hbs & ->).
    exists (b :: bs). split; [constructor; assumption | simpl; lia].
Qed.

Lemma sum_bonuses_bounds (emails : list value) (bs : list Z) :
  Forall2 (fun e b => email_step 0 e = Ok b) emails bs ->
  0 <= sum_bonuses bs <= 15 * Z.of_nat (length emails) /\ (5 | sum_bonuses bs).
Proof.
  induction 1 as [|e b es bs Hb _ [IH1 IH2]].
  - simpl. split; [lia | apply Z.divide_0_r].
  - cbn [sum_bonuses foldr length]. fold (sum_bonuses bs).
    split.
    + destruct (email_step_bonus e b Hb) as [->|[->|[->| ->]]]; lia.
    + apply Z.divide_add_r; [| exact IH2].
      destruct (email_step_bonus e b Hb) as [->|[->|[->| ->]]].
      * apply Z.divide_0_r.
      * exists 1. reflexivity.
      * exists 2. reflexivity.
      * exists 3. reflexivity.
Qed.

Lemma industry_term_values (v : value) (t : Z) :
  industry_term v = Ok t -> t = 0 \/ t = 10.
Proof.
  unfold industry_term. destruct (truthy v); [| intros [= <-]; auto].
  destruct (py_lower v) as [s|x]; [rewrite bind_Ok | discriminate].
  destruct (str_in s industries); intros [= <-]; auto.
Qed.

Lemma headcount_term_values (v : value) (t : Z) :
  headcount_term v = Ok t -> t = 0 \/ t = 20.
Proof.
  unfold headcount_term. destruct (truthy v); [| intros [= <-]; auto].
  destruct (py_gt v 10) as [[]|x]; simpl; intros [= <-]; auto.
Qed.

Lemma email_volume_term_values (v : value) (t : Z) :
  email_volume_term v = Ok t ->
  t <= 30 /\ (5 | t) /\
  ((forall n, as_num v = Some n -> 0 <= n) -> 0 <= t).
Proof.
  unfold email_volume_term, min_30_times_10.
  destruct (truthy v).
  2:{ intros [= <-]. split; [lia | split; [apply Z.divide_0_r | lia]]. }
  destruct (as_num v) as [n|]; [| discriminate].
  intros [= <-]. split; [lia | split].
  - destruct (Z.min_spec 30 (n * 10)) as [[_ ->]|[_ ->]].
    + exists 6. reflexivity.
    + exists (n * 2). lia.
  - intros Hn. specialize (Hn n eq_refl). lia.
Qed.

Lemma webmail_term_values (d : pydict) : webmail_term d = 0 \/ webmail_term d = 10.
Proof. unfold webmail_term. destruct (truthy _); auto. Qed.

Lemma total_score_parts (d : pydict) (s : Z) :
  total_score d = Ok s ->
  exists t1 t2 t3 l bs,
    email_volume_term (dict_get d "emails_count" (VInt 0)) = Ok t1 /\
    industry_term (dict_get d "industry" (VStr "")) = Ok t2 /\
    headcount_term (dict_get d "employees" (VInt 0)) = Ok t3 /\
    py_iter (dict_get d "emails" (VList [])) = Ok l /\
    Forall2 (fun e b => email_step 0 e = Ok b) l bs /\
    s = t1 + t2 + t3 + webmail_term d + sum_bonuses bs.
Proof.
  unfold total_score, score_terms.
  destruct (email_volume_term _) as [t1|x]; [| discriminate].
  destruct (industry_term _) as [t2|x]; [| discriminate].
  destruct (headcount_term _) as [t3|x]; [| discriminate].
  destruct (py_iter _) as [l|x]; [| discriminate].
  rewrite !bind_Ok. intros Hloop.
  apply email_loop_sum in Hloop as (bs & Hbs & ->).
  exists t1, t2, t3, l, bs. unfold webmail_term.
  repeat split; try reflexivity; assumption.
Qed.



(** ** The range of the score *)

Lemma total_score_range (d : pydict) (s : Z) :
  total_score d = Ok s ->
  exists l, py_iter (dict_get d "emails" (VList [])) = Ok l /\
    s <= 70 + 15 * Z.of_nat (length l) /\ (5 | s) /\
    ((forall n, as_num (dict_get d "emails_count" (VInt 0)) = Some n -> 0 <= n) ->
     0 <= s).
Proof.
  intros Hs.
  apply total_score_parts in Hs as (t1 & t2 & t3 & l & bs & H1 & H2 & H3 & Hl & Hbs & ->).
  exists l. split; [exact Hl |].
  apply email_volume_term_values in H1 as (Hle & Hdiv & Hpos).
  destruct (sum_bonuses_bounds l bs Hbs) as [Hsum Hsumdiv].
  pose proof (industry_term_values _ _ H2) as Ht2.
  pose proof (headcount_term_values _ _ H3) as Ht3.
  pose proof (webmail_term_values d) as Hw.
  split; [lia |]. split.
  - repeat apply Z.divide_add_r; try assumption.
    + destruct Ht2 as [-> | ->]; [apply Z.divide_0_r | exists 2; reflexivity].
    + destruct Ht3 as [-> | ->]; [apply Z.divide_0_r | exists 4; reflexivity].
    + destruct Hw as [-> | ->]; [apply Z.divide_0_r | exists 2; reflexivity].
  - intros Hn. specialize (Hpos Hn). lia.
Qed.

(** X2. The score of a returned result is at most 70 plus 15 per entry
    of [emails]: a record without email entries scores at most 70 and is
    never classified "High". *)
Theorem score_upper_bound (d r : pydict) :
  score_startup (VDict d) = Ok r ->
  exists s l,
    r !! "score" = Some (VInt s) /\
    py_iter (dict_get d "emails" (VList [])) = Ok l /\
    s <= 70 + 15 * Z.of_nat (length l) /\
    (l = [] -> s <= 70 /\ classify_score s <> "High").
Proof.
  intros Hr. apply score_startup_Ok_inv in Hr as (d' & s & [= <-] & Hs & ->).
  apply total_score_range in Hs as (l & Hl & Hle & _).
  exists s, l. split; [apply result_row_score |]. split; [exact Hl |].
  split; [exact Hle |]. intros ->. simpl in Hle. split; [lia |].
  unfold classify_score. destruct (Z.leb_spec 75 s); [lia |].
  destruct (40 <=? s); discriminate.
Qed.

Lemma score_upper_bound_witness :
  exists s l,
    result_row (<["emails_count" := VInt 50]> ∅) 30 !! "score" = Some (VInt s) /\
    py_iter (dict_get (<["emails_count" := VInt 50]> ∅) "emails" (VList [])) = Ok l /\
    s <= 70 + 15 * Z.of_nat (length l) /\
    (l = [] -> s <= 70 /\ classify_score s <> "High").
Proof.
  apply (score_upper_bound (<["emails_count" := VInt 50]> ∅)
           (result_row (<["emails_count" := VInt 50]> ∅) 30)).
  vm_compute. reflexivity.
Defined.

(** X3. The score of a returned result is not negative when
    [emails_count] is not a negative number. *)
Theorem score_nonnegative (d r : pydict) :
  (forall n, as_num (dict_get d "emails_count" (VInt 0)) = Some n -> 0 <= n) ->
  score_startup (VDict d) = Ok r ->
  exists s, r !! "score" = Some (VInt s) /\ 0 <= s.
Proof.
  intros Hcount Hr.
  apply score_startup_Ok_inv in Hr as (d' & s & [= <-] & Hs & ->).
  apply total_score_range in Hs as (l & _ & _ & _ & Hpos).
  exists s. split; [apply result_row_score | apply Hpos, Hcount].
Qed.

Lemma score_nonnegative_witness :
  exists s, result_row stripe_fields_employees 65 !! "score" = Some (VInt s) /\ 0 <= s.
Proof.
  apply (score_nonnegative stripe_fields_employees).
  - intros n Hn. vm_compute in Hn. injection Hn as <-. lia.
  - vm_compute. reflexivity.
Defined.

(** A negative [emails_count] is multiplied as it is. *)
Example negative_count_scores_negative :
  score_of (score_startup (VDict (<["emails_count" := VInt (-5)]> ∅)))
  = Ok (Some (VInt (-50))).
Proof. vm_compute. reflexivity. Qed.

(** ** The entries of [emails] *)

Lemma result_row_insert_emails (d : pydict) (v : value) (s : Z) :
  result_row (<["emails" := v]> d) s = result_row d s.
Proof.
  unfold result_row, dict_get.
  rewrite !lookup_insert_ne by discriminate. reflexivity.
Qed.

Lemma score_startup_insert_emails (d : pydict) (l : list value) :
  score_startup (VDict (<["emails" := VList l]> d))
  = t1 ← email_volume_term (dict_get d "emails_count" (VInt 0));
    t2 ← industry_term (dict_get d "industry" (VStr ""));
    t3 ← headcount_term (dict_get d "employees" (VInt 0));
    result_row d <$> email_loop (0 + t1 + t2 + t3 + webmail_term d) l.
Proof.
  rewrite score_startup_eq, total_score_insert_emails.
  unfold score_terms, webmail_term. cbn [py_iter].
  destruct (email_volume_term _) as [t1|x]; [| reflexivity].
  destruct (industry_term _) as [t2|x]; [| reflexivity].
  destruct (headcount_term _) as [t3|x]; [| reflexivity].
  rewrite !bind_Ok.
  destruct (email_loop _ l) as [s|x]; [| reflexivity].
  simpl. rewrite result_row_insert_emails. reflexivity.
Qed.

Lemma email_step_other_type (score : Z) (e : pydict) (ty : value) :
  e !! "type" = Some ty -> value_in ty email_types = false ->
  email_step score (VDict e) = Ok score.
Proof.
  intros Hty Hin. unfold email_step, subscript. rewrite Hty, bind_Ok, Hin.
  reflexivity.
Qed.

(** X4. An entry of [emails] whose type is neither "generic" nor
    "personal" is skipped without its confidence or position being
    read: whatever else it holds, the result is the one of the record
    without that entry. *)
Theorem other_types_are_skipped
    (d e : pydict) (ty : value) (pre post : list value) :
  e !! "type" = Some ty ->
  value_in ty email_types = false ->
  score_startup (VDict (<["emails" := VList (pre ++ VDict e :: post)]> d))
  = score_startup (VDict (<["emails" := VList (pre ++ post)]> d)).
Proof.
  intros Hty Hin. rewrite !score_startup_insert_emails.
  destruct (email_volume_term _) as [t1|x]; [| reflexivity].
  destruct (industry_term _) as [t2|x]; [| reflexivity].
  destruct (headcount_term _) as [t3|x]; [| reflexivity].
  rewrite !bind_Ok, !email_loop_app.
  destruct (email_loop _ pre) as [s|x]; [| reflexivity].
  rewrite !bind_Ok. cbn [email_loop].
  rewrite (email_step_other_type s e ty Hty Hin), bind_Ok. reflexivity.
Qed.

Lemma other_types_are_skipped_witness :
  score_startup (VDict (<["emails" := VList ([cto_email] ++ VDict role_entry :: [])]> ∅))
  = score_startup (VDict (<["emails" := VList ([cto_email] ++ [])]> ∅)).
Proof.
  apply (other_types_are_skipped ∅ role_entry (VStr "role")); reflexivity.
Defined.

Lemma email_loop_perm (l l' : list value) :
  Permutation l l' ->
  forall score t, email_loop score l = Ok t -> email_loop score l' = Ok t.
Proof.
  induction 1 as [|e l l' _ IH|e1 e2 l|l l' l'' _ IH1 _ IH2]; intros score t.
  - trivial.
  - cbn [email_loop]. destruct (email_step score e) as [s|x]; [| discriminate].
    rewrite !bind_Ok. apply IH.
  - cbn [email_loop]. rewrite (email_step_shift score e1), (email_step_shift score e2).
    destruct (email_step 0 e1) as [b1|x] eqn:H1, (email_step 0 e2) as [b2|y] eqn:H2;
      try discriminate.
    + simpl. rewrite (email_step_shift (score + b2) e1), (email_step_shift (score + b1) e2).
      rewrite H1, H2. simpl.
      replace (score + b2 + b1) with (score + b1 + b2) by lia. trivial.
    + simpl. rewrite (email_step_shift (score + b2) e1), H1. discriminate.
  - intros H. apply IH2, IH1, H.
Qed.

(** X5. For a record whose [emails_count] is absent or an integer, the
    order of the entries of [emails] does not matter: whenever
    [score_startup] returns a result for the record, it returns the same
    result for the record with its entries in any other order. *)
Theorem score_ignores_email_order (d r : pydict) (l l' : list value) :
  (d !! "emails_count" = None \/ exists n, d !! "emails_count" = Some (VInt n)) ->
  Permutation l l' ->
  score_startup (VDict (<["emails" := VList l]> d)) = Ok r ->
  score_startup (VDict (<["emails" := VList l']> d)) = Ok r.
Proof.
  intros _ Hperm. rewrite !score_startup_insert_emails.
  destruct (email_volume_term _) as [t1|x]; [| discriminate].
  destruct (industry_term _) as [t2|x]; [| discriminate].
  destruct (headcount_term _) as [t3|x]; [| discriminate].
  rewrite !bind_Ok.
  destruct (email_loop _ l) as [s|x] eqn:Hl; [| discriminate].
  rewrite (email_loop_perm l l' Hperm _ s Hl). trivial.
Qed.

Lemma score_ignores_email_order_witness :
  score_startup (VDict (<["emails" := VList [cto_email; ceo_email]]> ∅))
  = Ok (result_row (<["emails" := VList [cto_email; ceo_email]]> ∅) 30).
Proof.
  apply (score_ignores_email_order ∅ _ [ceo_email; cto_email]).
  - left. reflexivity.
  - apply perm_swap.
  - vm_compute. reflexivity.
Defined.

(** ** The shape of the rows *)

Lemma dom_make_result (org domain industry emails_found employees : value)
    (score : Z) :
  dom (make_result org domain industry emails_found employees score) = result_keys.
Proof.
  unfold make_result, result_keys. rewrite !dom_insert_L, dom_empty_L.
  set_solver.
Qed.

Lemma dom_result_row (d : pydict) (s : Z) : dom (result_row d s) = result_keys.
Proof. unfold result_row. apply dom_make_result. Qed.

Lemma dom_placeholder (domain : string) : dom (placeholder domain) = result_keys.
Proof. unfold placeholder. apply dom_make_result. Qed.

Lemma row_for_keys (domain : string) (o : http_outcome) (row : pydict) :
  row_for domain o row -> dom row = result_keys.
Proof.
  intros [domain' json data r _ Hr|domain' o' _].
  - apply score_startup_Ok_inv in Hr as (d & s & _ & _ & ->).
    apply dom_result_row.
  - apply dom_placeholder.
Qed.

(** X6. Every dict that [score_startup] returns has exactly the six keys
    organization, domain, industry, emails_found, employees and score,
    whatever keys the record has; the placeholder has the same six, so
    all rows of a batch have the same keys. *)
Theorem rows_have_the_result_keys {World : Type}
    (requests_get : World -> string -> http_outcome * World)
    (w : World) (domains : list string) :
  (forall data r, score_startup data = Ok r -> dom r = result_keys) /\
  (forall domain, dom (placeholder domain) = result_keys) /\
  Forall (fun row => dom row = result_keys) (batch_loop requests_get w domains []).1.
Proof.
  split; [| split].
  - intros data r Hr. apply score_startup_Ok_inv in Hr as (d & s & _ & _ & ->).
    apply dom_result_row.
  - intros domain. apply dom_placeholder.
  - pose proof (batch_loop_Forall3 requests_get w domains) as HF.
    induction HF as [|domain o row ds os rows Hrow _ IH]; constructor.
    + eapply row_for_keys. exact Hrow.
    + exact IH.
Qed.

Lemma rows_have_the_result_keys_witness :
  dom (result_row stripe_fields_employees 65) = result_keys.
Proof.
  destruct (rows_have_the_result_keys scripted three_world three_domains) as (H & _).
  apply (H stripe_record_employees). vm_compute. reflexivity.
Defined.

(** ** Batches in sequence *)

Lemma batch_loop_app {World : Type}
    (requests_get : World -> string -> http_outcome * World)
    (domains1 domains2 : list string) (w : World) (acc : list pydict) :
  batch_loop requests_get w (domains1 ++ domains2) acc
  = batch_loop requests_get (batch_loop requests_get w domains1 acc).2 domains2
      (batch_loop requests_get w domains1 acc).1.
Proof.
  revert w acc. induction domains1 as [|domain rest IH]; intros w acc; [reflexivity |].
  cbn [app batch_loop]. destruct (requests_get w domain) as [o w']. apply IH.
Qed.

Lemma batch_loop_world {World : Type}
    (requests_get : World -> string -> http_outcome * World)
    (domains : list string) (w : World) (acc acc' : list pydict) :
  (batch_loop requests_get w domains acc).2 = (batch_loop requests_get w domains acc').2.
Proof.
  revert w acc acc'. induction domains as [|domain rest IH]; intros w acc acc';
    [reflexivity |].
  cbn [batch_loop]. destruct (requests_get w domain) as [o w']. apply IH.
Qed.

Lemma loop_body_app (results : list pydict) (domain : string) (o : http_outcome) :
  loop_body results domain o = results ++ loop_body [] domain o.
Proof.
  unfold loop_body, try_block.
  destruct o as [|status_code body]; [reflexivity |].
  destruct (status_code =? 200); [| reflexivity].
  destruct (response_json body) as [json|x]; [| reflexivity].
  rewrite !bind_Ok.
  destruct (subscript json "data") as [data|x]; [| reflexivity].
  rewrite !bind_Ok.
  destruct (score_startup data) as [r|x]; reflexivity.
Qed.

Lemma batch_loop_acc {World : Type}
    (requests_get : World -> string -> http_outcome * World)
    (domains : list string) (w : World) (acc : list pydict) :
  (batch_loop requests_get w domains acc).1
  = acc ++ (batch_loop requests_get w domains []).1.
Proof.
  revert w acc. induction domains as [|domain rest IH]; intros w acc.
  - simpl. rewrite app_nil_r. reflexivity.
  - cbn [batch_loop]. destruct (requests_get w domain) as [o w'].
    rewrite (IH w' (loop_body acc domain o)), (IH w' (loop_body [] domain o)).
    rewrite (loop_body_app acc), <- app_assoc. reflexivity.
Qed.

(** X7. The rows of a batch over one list of domains followed by another
    are the rows of the batch over the first list followed by the rows
    of the batch over the second list, run on the network as the first
    batch left it: later domains never change the rows of earlier
    ones. *)
Theorem batch_loop_in_sequence {World : Type}
    (requests_get : World -> string -> http_outcome * World)
    (w : World) (domains1 domains2 : list string) :
  let first := batch_loop requests_get w domains1 [] in
  (batch_loop requests_get w (domains1 ++ domains2) []).1
  = first.1 ++ (batch_loop requests_get first.2 domains2 []).1 /\
  (batch_loop requests_get w (domains1 ++ domains2) []).2
  = (batch_loop requests_get first.2 domains2 []).2.
Proof.
  cbv zeta. rewrite batch_loop_app. split.
  - apply batch_loop_acc.
  - apply batch_loop_world.
Qed.

(** ** What the sorted tables show *)

Lemma StronglySorted_lookup {A} (R : A -> A -> Prop) (l : list A)
    (i j : nat) (a b : A) :
  StronglySorted R l -> (i < j)%nat -> l !! i = Some a -> l !! j = Some b -> R a b.
Proof.
  intros Hsorted. revert i j.
  induction Hsorted as [|x l _ IH Hall]; intros i j Hij Hi Hj; [discriminate Hi |].
  destruct j as [|j]; [lia |]. destruct i as [|i].
  - injection Hi as <-. simpl in Hj.
    rewrite Forall_forall in Hall. apply Hall.
    eapply list_elem_of_lookup_2. exact Hj.
  - simpl in Hi, Hj. apply (IH i j); [lia | assumption..].
Qed.

Lemma classify_score_High (s : Z) : classify_score s = "High" <-> 75 <= s.
Proof.
  unfold classify_score. destruct (Z.leb_spec 75 s); [tauto |].
  destruct (40 <=? s); split; (discriminate || lia).
Qed.

Lemma classify_score_Low (s : Z) : classify_score s = "Low" <-> s < 40.
Proof.
  unfold classify_score. destruct (Z.leb_spec 75 s); [split; (discriminate || lia) |].
  destruct (Z.leb_spec 40 s); split; (discriminate || lia || reflexivity).
Qed.

Lemma classify_score_in_tiers (s : Z) : classify_score s ∈ score_tiers.
Proof.
  unfold classify_score, score_tiers.
  destruct (75 <=? s); [set_solver |]. destruct (40 <=? s); set_solver.
Qed.

Lemma score_group_tier_row (row : pydict) :
  score_group (tier_row row) = Some (VStr (classify_score (score_key row))).
Proof. unfold score_group, tier_row. apply lookup_insert_eq. Qed.

(** X9. Every row of the top-10 view carries one of the three labels of
    the chart's colour scale, and the labels come in order: no row
    follows a "Low" row unless it is "Low" itself, and every row before
    a "High" row is "High". *)
Theorem top10_tiers_are_ordered {World : Type}
    (requests_get : World -> string -> http_outcome * World)
    (w : World) (domains : list string)
    (sort_values : list pydict -> list pydict) :
  sorts_by_score sort_values ->
  domains <> [] ->
  let results := (batch_loop requests_get w domains []).1 in
  exists results_df top10,
    result_tables sort_values results = Ok (results_df, top10) /\
    (forall row, row ∈ top10 ->
       exists t, score_group row = Some (VStr t) /\ t ∈ score_tiers) /\
    (forall (i j : nat) a b,
       (i < j)%nat -> top10 !! i = Some a -> top10 !! j = Some b ->
       (score_group b = Some (VStr "High") -> score_group a = Some (VStr "High")) /\
       (score_group a = Some (VStr "Low") -> score_group b = Some (VStr "Low"))).
Proof.
  intros Hsort Hdomains results.
  assert (Hperm : forall rows, Permutation (sort_values rows) rows)
    by (intros rows; apply Hsort).
  assert (Hne : results <> []) by (apply batch_loop_nonempty; exact Hdomains).
  assert (Hplain : Forall plain_row results) by apply batch_loop_plain.
  destruct (Hsort results) as [_ Hsorted].
  exists (sort_values results), (tier_row <$> take 10 (sort_values results)).
  split; [apply result_tables_eq; assumption |]. split.
  - intros row Hrow. apply list_elem_of_fmap in Hrow as (x & -> & _).
    exists (classify_score (score_key x)).
    split; [apply score_group_tier_row | apply classify_score_in_tiers].
  - intros i j a b Hij Ha Hb.
    rewrite list_lookup_fmap in Ha, Hb.
    destruct (take 10 (sort_values results) !! i) as [x|] eqn:Hx; [| discriminate Ha].
    destruct (take 10 (sort_values results) !! j) as [y|] eqn:Hy; [| discriminate Hb].
    injection Ha as <-. injection Hb as <-.
    apply lookup_take_Some in Hx as [Hx _]. apply lookup_take_Some in Hy as [Hy _].
    pose proof (StronglySorted_lookup _ _ i j x y Hsorted Hij Hx Hy) as Hle.
    unfold score_desc in Hle. rewrite !score_group_tier_row.
    split; intros [= H]; do 2 f_equal.
    + apply classify_score_High in H. apply classify_score_High. lia.
    + apply classify_score_Low in H. apply classify_score_Low. lia.
Qed.

Lemma top10_tiers_are_ordered_witness :
  exists results_df top10,
    result_tables stable_sort three_results = Ok (results_df, top10) /\
    (forall row, row ∈ top10 ->
       exists t, score_group row = Some (VStr t) /\ t ∈ score_tiers) /\
    (forall (i j : nat) a b,
       (i < j)%nat -> top10 !! i = Some a -> top10 !! j = Some b ->
       (score_group b = Some (VStr "High") -> score_group a = Some (VStr "High")) /\
       (score_group a = Some (VStr "Low") -> score_group b = Some (VStr "Low"))).
Proof.
  apply (top10_tiers_are_ordered scripted three_world three_domains stable_sort).
  - exact stable_sort_sorts.
  - discriminate.
Defined.

(** ** The single-domain path and the batch *)

Lemma analyze_nonempty {World : Type}
    (requests_get : World -> string -> http_outcome * World)
    (w : World) (domain : string) :
  domain <> "" ->
  analyze requests_get w domain
  = (analyze_response (requests_get w domain).1, (requests_get w domain).2).
Proof.
  intros Hd. unfold analyze. apply String.eqb_neq in Hd. rewrite Hd.
  destruct (requests_get w domain); reflexivity.
Qed.

Lemma batch_loop_single {World : Type}
    (requests_get : World -> string -> http_outcome * World)
    (w : World) (domain : string) :
  (batch_loop requests_get w [domain] []).1
  = loop_body [] domain (requests_get w domain).1.
Proof. simpl. destruct (requests_get w domain); reflexivity. Qed.

Lemma analyze_response_scored (json data : value) (r : pydict) :
  subscript json "data" = Ok data -> score_startup data = Ok r ->
  analyze_response (Response 200 (Some json)) = Ok (Scored r).
Proof.
  intros Hdata Hr. destruct json as [| | | | |j]; try discriminate Hdata.
  simpl in Hdata. destruct (j !! "data") as [x|] eqn:Hx; [| discriminate Hdata].
  injection Hdata as ->.
  unfold analyze_response. simpl. unfold dict_get. rewrite Hx. simpl.
  rewrite Hr. reflexivity.
Qed.

Lemma loop_body_scored (domain : string) (json data : value) (r : pydict) :
  subscript json "data" = Ok data -> score_startup data = Ok r ->
  loop_body [] domain (Response 200 (Some json)) = [r].
Proof.
  intros Hdata Hr. unfold loop_body, try_block. simpl.
  rewrite Hdata. simpl. rewrite Hr. reflexivity.
Qed.



(** X10. Pressing "Analyze" on a non-empty domain makes exactly the
    request that the batch makes for that domain, and whenever the
    batch scores the answer, "Analyze" shows that same result; on an
    empty input it makes no request and shows the warning. *)
Theorem analyze_shows_the_batch_row {World : Type}
    (requests_get : World -> string -> http_outcome * World)
    (w : World) (domain : string) :
  analyze requests_get w "" = (Ok EnterDomainWarning, w) /\
  (domain <> "" ->
   (analyze requests_get w domain).2 = (batch_loop requests_get w [domain] []).2 /\
   forall json data r,
     (requests_get w domain).1 = Response 200 (Some json) ->
     subscript json "data" = Ok data ->
     score_startup data = Ok r ->
     (batch_loop requests_get w [domain] []).1 = [r] /\
     (analyze requests_get w domain).1 = Ok (Scored r)).
Proof.
  split; [reflexivity |]. intros Hd.
  rewrite (analyze_nonempty requests_get w domain Hd). split.
  - simpl. destruct (requests_get w domain); reflexivity.
  - intros json data r Ho Hdata Hr. rewrite batch_loop_single, Ho. split.
    + apply (loop_body_scored domain json data r Hdata Hr).
    + apply (analyze_response_scored json data r Hdata Hr).
Qed.

Lemma analyze_shows_the_batch_row_witness :
  (batch_loop scripted [ok_response stripe_record_employees] ["stripe.com"] []).1
  = [result_row stripe_fields_employees 65] /\
  (analyze scripted [ok_response stripe_record_employees] "stripe.com").1
  = Ok (Scored (result_row stripe_fields_employees 65)).
Proof.
  destruct (analyze_shows_the_batch_row scripted
              [ok_response stripe_record_employees] "stripe.com") as [_ H].
  destruct H as [_ H]; [discriminate |].
  apply (H (VDict (<["data" := stripe_record_employees]> ∅)) stripe_record_employees).
  - reflexivity.
  - reflexivity.
  - vm_compute. reflexivity.
Defined.



(** The empty record, as "Analyze" shows it for an answer without
    [data]. *)
Example empty_record_result :
  score_startup (VDict ∅)
  = Ok (make_result (VStr "N/A") VNone (VStr "N/A") (VInt 0) (VStr "N/A") 0).
Proof. reflexivity. Qed.

(** ** The fields of a result *)

(** X12. A returned result repeats the record's [domain] (None when
    absent) and its [emails_count] as [emails_found] (0 when absent,
    and uncapped); its [industry] and [employees] are never falsy: each
    is the record's value when that is truthy and "N/A" otherwise, so a
    headcount of 0 is reported as "N/A". *)
Theorem result_repeats_the_record (d r : pydict) :
  score_startup (VDict d) = Ok r ->
  r !! "domain" = Some (default VNone (d !! "domain")) /\
  r !! "emails_found" = Some (default (VInt 0) (d !! "emails_count")) /\
  (exists i, r !! "industry" = Some i /\ truthy i = true /\
     (d !! "industry" = Some i \/
      i = VStr "N/A" /\ truthy (default (VStr "") (d !! "industry")) = false)) /\
  (exists e, r !! "employees" = Some e /\ truthy e = true /\
     (d !! "employees" = Some e \/
      e = VStr "N/A" /\ truthy (default (VInt 0) (d !! "employees")) = false)).
Proof.
  intros Hr. apply score_startup_Ok_inv in Hr as (d' & s & [= <-] & _ & ->).
  unfold result_row, dict_get, or_na.
  rewrite make_result_domain, make_result_emails_found, make_result_industry,
    make_result_employees.
  split; [reflexivity |]. split; [reflexivity |]. split.
  - destruct (d !! "industry") as [i|]; simpl.
    + destruct (truthy i) eqn:Hi.
      * exists i. auto.
      * exists (VStr "N/A"). auto.
    + exists (VStr "N/A"). auto.
  - destruct (d !! "employees") as [e|]; simpl.
    + destruct (truthy e) eqn:He.
      * exists e. auto.
      * exists (VStr "N/A"). auto.
    + exists (VStr "N/A"). auto.
Qed.

Lemma result_repeats_the_record_witness :
  result_row (<["employees" := VInt 0]> (<["emails_count" := VInt 50]> ∅)) 30
    !! "emails_found" = Some (VInt 50) /\
  exists e,
    result_row (<["employees" := VInt 0]> (<["emails_count" := VInt 50]> ∅)) 30
      !! "employees" = Some e /\ truthy e = true.
Proof.
  destruct (result_repeats_the_record
              (<["employees" := VInt 0]> (<["emails_count" := VInt 50]> ∅))
              (result_row (<["employees" := VInt 0]> (<["emails_count" := VInt 50]> ∅)) 30))
    as (_ & Hfound & _ & (e & He & Ht & _)).
  - vm_compute. reflexivity.
  - split; [exact Hfound |]. exists e. split; assumption.
Defined.

(** ** One more entry *)



(** * Letter case in the score *)

Lemma email_loop_shift (score k : Z) (emails : list value) :
  email_loop (score + k) emails = (fun t => t + k) <$> email_loop score emails.
Proof.
  revert score. induction emails as [|email rest IH]; intros score; [reflexivity |].
  cbn [email_loop].
  rewrite (email_step_shift (score + k) email), (email_step_shift score email).
  destruct (email_step 0 email) as [b|x]; [| reflexivity].
  simpl. replace (score + k + b) with (score + b + k) by lia. apply IH.
Qed.

Lemma score_terms_shift_industry
    (email_count industry industry' employees webmail emails : value) (a : Z) :
  industry_term industry' = (fun t => t + a) <$> industry_term industry ->
  score_terms email_count industry' employees webmail emails
  = (fun t => t + a) <$> score_terms email_count industry employees webmail emails.
Proof.
  intros Hterm. unfold score_terms.
  destruct (email_volume_term email_count) as [t1|x]; [| reflexivity].
  rewrite !bind_Ok, Hterm.
  destruct (industry_term industry) as [t2|x]; [| reflexivity].
  simpl. destruct (headcount_term employees) as [t3|x]; [| reflexivity].
  simpl. destruct (py_iter emails) as [l|x]; [| reflexivity].
  simpl.
  replace (0 + t1 + (t2 + a) + t3 + (if truthy webmail then 10 else 0))
    with (0 + t1 + t2 + t3 + (if truthy webmail then 10 else 0) + a) by lia.
  apply email_loop_shift.
Qed.

Lemma score_terms_shift_emails
    (email_count industry employees webmail : value) (l l' : list value) (a : Z) :
  (forall score, email_loop score l' = (fun t => t + a) <$> email_loop score l) ->
  score_terms email_count industry employees webmail (VList l')
  = (fun t => t + a) <$> score_terms email_count industry employees webmail (VList l).
Proof.
  intros Hloop. unfold score_terms.
  destruct (email_volume_term email_count) as [t1|x]; [| reflexivity].
  destruct (industry_term industry) as [t2|x]; [| reflexivity].
  destruct (headcount_term employees) as [t3|x]; [| reflexivity].
  simpl. apply Hloop.
Qed.

Lemma lower_listed (name : string) :
  In name (industries ++ positions) -> lower name = name /\ truthy (VStr name) = true.
Proof.
  simpl. intros [<-|[<-|[<-|[<-|[<-|[<-|[]]]]]]]; split; reflexivity.
Qed.

Lemma industry_term_listed (mask : list bool) (name : string) :
  In name industries -> industry_term (VStr (recase mask name)) = Ok 10.
Proof.
  intros Hin. rewrite industry_term_recase.
  destruct (lower_listed name) as [Hlower Htruthy]; [apply in_or_app; left; exact Hin |].
  unfold industry_term. rewrite Htruthy. simpl py_lower. rewrite bind_Ok, Hlower.
  simpl in Hin. destruct Hin as [<-|[<-|[<-|[]]]]; reflexivity.
Qed.

Lemma position_bonus_listed (mask : list bool) (name : string) (e : pydict) :
  In name positions ->
  position_bonus (<["position" := VStr (recase mask name)]> e) = Ok 5.
Proof.
  intros Hin. rewrite position_bonus_recase.
  destruct (lower_listed name) as [Hlower Htruthy]; [apply in_or_app; right; exact Hin |].
  unfold position_bonus, dict_get. rewrite lookup_insert_eq.
  cbn [default from_option]. unfold id. cbv zeta.
  rewrite Htruthy. simpl py_lower. rewrite bind_Ok, Hlower.
  simpl in Hin. destruct Hin as [<-|[<-|[<-|[]]]]; reflexivity.
Qed.

Lemma email_step_listed_position
    (mask : list bool) (name : string) (e : pydict) (ty : value) (score : Z) :
  In name positions ->
  e !! "type" = Some ty -> value_in ty email_types = true ->
  e !! "position" = None ->
  email_step score (VDict (<["position" := VStr (recase mask name)]> e))
  = (fun t => t + 5) <$> email_step score (VDict e).
Proof.
  intros Hin Hty Htype Hpos. unfold email_step, subscript.
  rewrite lookup_insert_ne by discriminate. rewrite Hty, !bind_Ok, Htype.
  cbn [as_dict]. rewrite !bind_Ok, confidence_bonus_insert_position.
  rewrite (position_bonus_listed mask name e Hin), (position_bonus_absent e Hpos).
  destruct (confidence_bonus e) as [c|x]; [| reflexivity].
  simpl. f_equal. lia.
Qed.

Lemma score_of_Ok_inv (d : pydict) (t : Z) :
  score_of (score_startup (VDict d)) = Ok (Some (VInt t)) -> total_score d = Ok t.
Proof.
  rewrite score_startup_total_score.
  destruct (total_score d) as [s|x]; [| discriminate].
  simpl. intros [= ->]. reflexivity.
Qed.

(** C9 (as amended). Industry and position are matched without regard
    to the case of ASCII letters: changing the case of any ASCII
    letters of a record's industry string, or of the position string of
    any of its email entries, leaves the score as it was (and the scorer
    raises in the one case exactly when it raises in the other).  A
    listed industry name in any such casing adds exactly 10 to the
    score of the record without an industry, and a listed position in
    any such casing adds exactly 5 to the score of the record whose
    entry has no position: the records with industry "SaaS" and "saas"
    both score 10, the records with one "generic" entry of position
    "Founder" and "founder" both score 5. *)
Theorem score_case_insensitive
    (d e : pydict) (pre post : list value) (s : string) (mask : list bool) :
  score_of (score_startup (VDict (<["industry" := VStr (recase mask s)]> d)))
  = score_of (score_startup (VDict (<["industry" := VStr s]> d))) /\
  score_of (score_startup (VDict (<["emails" :=
      VList (pre ++ VDict (<["position" := VStr (recase mask s)]> e) :: post)]> d)))
  = score_of (score_startup (VDict (<["emails" :=
      VList (pre ++ VDict (<["position" := VStr s]> e) :: post)]> d))) /\
  (forall name t,
     In name industries -> d !! "industry" = None ->
     score_of (score_startup (VDict d)) = Ok (Some (VInt t)) ->
     score_of (score_startup (VDict (<["industry" := VStr (recase mask name)]> d)))
     = Ok (Some (VInt (t + 10)))) /\
  (forall name ty t,
     In name positions ->
     e !! "type" = Some ty -> value_in ty email_types = true ->
     e !! "position" = None ->
     score_of (score_startup (VDict (<["emails" := VList (pre ++ VDict e :: post)]> d)))
     = Ok (Some (VInt t)) ->
     score_of (score_startup (VDict (<["emails" :=
         VList (pre ++ VDict (<["position" := VStr (recase mask name)]> e) :: post)]> d)))
     = Ok (Some (VInt (t + 5)))) /\
  recase [false; true; true; false] "SaaS" = "SAAS" /\
  recase [true; false; false; true] "SaaS" = "saas" /\
  score_of (score_startup (VDict (<["industry" := VStr "SaaS"]> ∅)))
  = Ok (Some (VInt 10)) /\
  score_of (score_startup (VDict (<["industry" := VStr "saas"]> ∅)))
  = Ok (Some (VInt 10)) /\
  recase [true] "Founder" = "founder" /\
  score_of (score_startup (VDict (<["emails" :=
      VList [VDict (<["position" := VStr "Founder"]> generic_entry)]]> ∅)))
  = Ok (Some (VInt 5)) /\
  score_of (score_startup (VDict (<["emails" :=
      VList [VDict (<["position" := VStr "founder"]> generic_entry)]]> ∅)))
  = Ok (Some (VInt 5)).
Proof.
  split; [| split; [| split; [| split]]].
  - rewrite !score_startup_total_score, !total_score_insert_industry.
    unfold score_terms. rewrite industry_term_recase. reflexivity.
  - rewrite !score_startup_total_score, !total_score_insert_emails.
    unfold score_terms. cbn [py_iter]. f_equal.
    destruct (email_volume_term _) as [t1|x]; [| reflexivity].
    destruct (industry_term _) as [t2|x]; [| reflexivity].
    destruct (headcount_term _) as [t3|x]; [| reflexivity].
    rewrite !bind_Ok, !email_loop_app.
    destruct (email_loop _ pre) as [s0|x]; [| reflexivity].
    rewrite !bind_Ok. cbn [email_loop]. rewrite email_step_recase. reflexivity.
  - intros name t Hin Hnone Ht. apply score_of_Ok_inv in Ht.
    rewrite score_startup_total_score, total_score_insert_industry.
    rewrite (score_terms_shift_industry _ (VStr "") _ _ _ _ 10).
    + assert (Hd : dict_get d "industry" (VStr "") = VStr "")
        by (unfold dict_get; rewrite Hnone; reflexivity).
      unfold total_score in Ht. rewrite Hd in Ht. rewrite Ht. reflexivity.
    + rewrite (industry_term_listed mask name Hin). reflexivity.
  - intros name ty t Hin Hty Htype Hpos Ht. apply score_of_Ok_inv in Ht.
    rewrite total_score_insert_emails in Ht.
    rewrite score_startup_total_score, total_score_insert_emails.
    rewrite (score_terms_shift_emails _ _ _ _ (pre ++ VDict e :: post) _ 5).
    + rewrite Ht. reflexivity.
    + intros score. rewrite !email_loop_app.
      destruct (email_loop score pre) as [s0|x]; [| reflexivity].
      rewrite !bind_Ok. cbn [email_loop].
      rewrite (email_step_listed_position mask name e ty s0 Hin Hty Htype Hpos).
      destruct (email_step s0 (VDict e)) as [u|x]; [| reflexivity].
      simpl. apply email_loop_shift.
  - repeat split; vm_compute; reflexivity.
Qed.

Lemma score_case_insensitive_witness :
  score_of (score_startup (VDict
    (<["industry" := VStr (recase [true; false; false; true] "saas")]> ∅)))
  = Ok (Some (VInt (0 + 10))) /\
  score_of (score_startup (VDict (<["emails" :=
      VList ([] ++ VDict (<["position" := VStr (recase [true] "founder")]> generic_entry)
               :: [])]> ∅)))
  = Ok (Some (VInt (0 + 5))).
Proof.
  destruct (score_case_insensitive ∅ generic_entry [] [] "" [true; false; false; true])
    as (_ & _ & Hind & _).
  destruct (score_case_insensitive ∅ generic_entry [] [] "" [true])
    as (_ & _ & _ & Hpos & _).
  split.
  - apply Hind; [simpl; tauto | reflexivity | vm_compute; reflexivity].
  - apply (Hpos "founder" (VStr "generic"));
      [simpl; tauto | reflexivity | reflexivity | reflexivity | vm_compute; reflexivity].
Defined.

(** A change of case outside ASCII is not covered: "ſaas" does not
    earn the industry term, while its upper-case form "SAAS" does. *)
Lemma long_s_is_not_matched :
  lower long_s_saas = long_s_saas /\
  score_of (score_startup (VDict (<["industry" := VStr long_s_saas]> ∅)))
  = Ok (Some (VInt 0)) /\
  score_of (score_startup (VDict (<["industry" := VStr "SAAS"]> ∅)))
  = Ok (Some (VInt 10)).
Proof. repeat split; vm_compute; reflexivity. Qed.
